(** * AI Interview Coach: the feedback pipeline of [app.py]

    A shallow embedding of the four pieces of [app.py] that carry behaviour:
    the deployment gate at module level, [generate_feedback],
    [analyze_sentiment] and [analyze_emotion_from_image].

    Python values are a small inductive type, Python strings are lists of
    Unicode code points, and a call is a pair of the events it emitted (the
    Streamlit widgets it drew, the HTTP request it sent, the decoder it
    invoked) and its outcome: a returned value or a raised exception.  The
    libraries the program calls ([requests], [cv2], [DeepFace], [TextBlob],
    [json.dumps], [str()]) are parameters of the development. *)

From Stdlib Require Import List NArith ZArith Bool Ascii String Floats Lia.
From Stdlib.Strings Require Import Byte.
Import ListNotations.

Set Implicit Arguments.
Set Warnings "-register-all".

(** ** Python strings *)

Module PyStr.

(** A [str] is a sequence of Unicode code points. *)
Definition codepoint := N.
Definition pystr := list codepoint.

(** A string literal of the source; the literals used below are ASCII. *)
Definition lit (s : string) : pystr :=
  map N_of_ascii (list_ascii_of_string s).

Definition newline : codepoint := 10%N.
Definition dquote : codepoint := 34%N.

(** One source line of a triple-quoted literal, with its line break. *)
Definition line (s : string) : pystr := lit s ++ [newline].

(** [a == b] *)
Fixpoint pystr_eqb (a b : pystr) : bool :=
  match a, b with
  | [], [] => true
  | x :: a', y :: b' => (x =? y)%N && pystr_eqb a' b'
  | _, _ => false
  end.

(** [str.isspace] on one code point: the characters CPython's
    [_PyUnicode_IsWhitespace] accepts. *)
Definition isspace (c : codepoint) : bool :=
  (((9 <=? c) && (c <=? 13)) || ((28 <=? c) && (c <=? 32))
   || (c =? 133) || (c =? 160) || (c =? 5760)
   || ((8192 <=? c) && (c <=? 8202))
   || (c =? 8232) || (c =? 8233) || (c =? 8239) || (c =? 8287)
   || (c =? 12288))%N.

Fixpoint lstrip (s : pystr) : pystr :=
  match s with
  | [] => []
  | c :: rest => if isspace c then lstrip rest else s
  end.

Definition rstrip (s : pystr) : pystr := rev (lstrip (rev s)).

(** [s.strip()] *)
Definition strip (s : pystr) : pystr := rstrip (lstrip s).

(** A string is blank when it is empty or made of whitespace only. *)
Definition blank (s : pystr) : bool := forallb isspace s.

(** [str.upper] on the ASCII range; what it does to a code point outside
    ASCII (which may expand to several code points) is the parameter
    [upper_other]. *)
Definition upper_char (upper_other : codepoint -> pystr) (c : codepoint) : pystr :=
  if ((97 <=? c) && (c <=? 122))%N then [(c - 32)%N]
  else if (c <? 128)%N then [c]
  else upper_other c.

Definition upper (upper_other : codepoint -> pystr) (s : pystr) : pystr :=
  flat_map (upper_char upper_other) s.

(** [x] occurs in [s] as a contiguous substring. *)
Definition infix (x s : pystr) : Prop := exists p q, s = p ++ x ++ q.

(** The strings of [ds] occur in [s] one after the other, in this order. *)
Fixpoint in_order (ds : list pystr) (s : pystr) : Prop :=
  match ds with
  | [] => True
  | d :: ds' => exists p q, s = p ++ d ++ q /\ in_order ds' q
  end.

Fixpoint prefixb (x s : pystr) : bool :=
  match x, s with
  | [], _ => true
  | _ :: _, [] => false
  | a :: x', b :: s' => (a =? b)%N && prefixb x' s'
  end.

(** A decision procedure for [in_order], scanning [s] from the left. *)
Fixpoint in_orderb_from (fuel : nat) (ds : list pystr) (s : pystr) : bool :=
  match ds with
  | [] => true
  | d :: ds' =>
      match fuel with
      | O => false
      | S fuel' =>
          if prefixb d s then in_orderb_from fuel' ds' (skipn (List.length d) s)
          else match s with
               | [] => false
               | _ :: s' => in_orderb_from fuel' ds s'
               end
      end
  end.

Definition in_orderb (ds : list pystr) (s : pystr) : bool :=
  in_orderb_from (List.length ds + List.length s) ds s.

End PyStr.
Export PyStr.

(** ** Python values *)

Module PyVal.

(** The values the program handles: what [json.loads] builds from a
    response body, what [DeepFace.analyze] reports, and the strings,
    dictionaries and [None] the program itself returns.  A [dict] keeps its
    items in order; a key is looked up from the left. *)
Inductive pyval : Type :=
| PyNone
| PyBool (b : bool)
| PyInt (z : Z)
| PyFloat (f : float)
| PyStr (s : pystr)
| PyList (items : list pyval)
| PyDict (items : list (pystr * pyval)).

(** The truth value [if v:], [not v] and [v and ...] test. *)
Definition truthy (v : pyval) : bool :=
  match v with
  | PyNone => false
  | PyBool b => b
  | PyInt z => negb (z =? 0)%Z
  | PyFloat f => negb (PrimFloat.eqb f 0%float)
  | PyStr s => match s with [] => false | _ :: _ => true end
  | PyList l => match l with [] => false | _ :: _ => true end
  | PyDict d => match d with [] => false | _ :: _ => true end
  end.

Fixpoint lookup (k : pystr) (d : list (pystr * pyval)) : option pyval :=
  match d with
  | [] => None
  | (k', v) :: rest => if pystr_eqb k k' then Some v else lookup k rest
  end.

(** *** Exceptions

    An exception is seen by the program through the [except] clause that
    matches its class and through the text [f"{e}"] gives it. *)
Inductive exc_class : Type :=
| RequestException           (* requests.exceptions.RequestException and its
                                subclasses: ConnectionError, HTTPError, ... *)
| JSONDecodeError            (* json.JSONDecodeError *)
| RequestsJSONDecodeError    (* requests.exceptions.JSONDecodeError, a subclass
                                of both of the above *)
| AttributeError
| TypeError
| KeyError
| IndexError
| OtherException             (* any other subclass of Exception *)
| NonException.              (* a BaseException outside Exception:
                                KeyboardInterrupt, SystemExit *)

Record py_exception : Type := MkException {
  exc_class_of : exc_class;
  exc_text : pystr            (* str(e) *)
}.

(** The class tests of the three [except] clauses. *)
Definition is_RequestException (e : py_exception) : bool :=
  match exc_class_of e with
  | RequestException | RequestsJSONDecodeError => true
  | _ => false
  end.

Definition is_JSONDecodeError (e : py_exception) : bool :=
  match exc_class_of e with
  | JSONDecodeError | RequestsJSONDecodeError => true
  | _ => false
  end.

Definition is_Exception (e : py_exception) : bool :=
  match exc_class_of e with
  | NonException => false
  | _ => true
  end.

Inductive outcome (A : Type) : Type :=
| Returned (a : A)
| Raised (e : py_exception).
Arguments Raised {A} e.

Definition obind {A B} (m : outcome A) (f : A -> outcome B) : outcome B :=
  match m with
  | Returned a => f a
  | Raised e => Raised e
  end.

(** *** The operations lines 93-96 and 151-153 apply to a value

    [error_text c v] is the text the interpreter gives the exception of
    class [c] it raises on the operand [v]. *)
Section Operations.
Variable error_text : exc_class -> pyval -> pystr.

Definition builtin_error {A} (c : exc_class) (v : pyval) : outcome A :=
  Raised (MkException c (error_text c v)).

(** [v.get(k)] *)
Definition get (v : pyval) (k : pystr) : outcome pyval :=
  match v with
  | PyDict d =>
      Returned (match lookup k d with Some x => x | None => PyNone end)
  | _ => builtin_error AttributeError v
  end.

(** [v[k]] for a string key [k] *)
Definition getitem (v : pyval) (k : pystr) : outcome pyval :=
  match v with
  | PyDict d =>
      match lookup k d with
      | Some x => Returned x
      | None => builtin_error KeyError (PyStr k)
      end
  | _ => builtin_error TypeError v
  end.

(** [v[0]] *)
Definition getitem0 (v : pyval) : outcome pyval :=
  match v with
  | PyList (x :: _) => Returned x
  | PyList [] => builtin_error IndexError v
  | PyStr (c :: _) => Returned (PyStr [c])
  | PyStr [] => builtin_error IndexError v
  | PyDict _ => builtin_error KeyError (PyInt 0)
  | _ => builtin_error TypeError v
  end.

(** [len(v)] *)
Definition len (v : pyval) : outcome Z :=
  match v with
  | PyStr s => Returned (Z.of_nat (List.length s))
  | PyList l => Returned (Z.of_nat (List.length l))
  | PyDict d => Returned (Z.of_nat (List.length d))
  | _ => builtin_error TypeError v
  end.

(** [a and b] as a condition: [b] is evaluated only when [a] is true. *)
Definition and_then (a b : outcome bool) : outcome bool :=
  match a with
  | Returned true => b
  | _ => a
  end.
End Operations.

End PyVal.
Export PyVal.

(** ** Calls and their effects *)

Module Effects.

(** What a call does that its caller or the user can observe. *)
Inductive event : Type :=
| StError (msg : pystr)                      (* st.error(msg) *)
| StSpinner (msg : pystr)                    (* with st.spinner(msg): *)
| StStop                                     (* st.stop() *)
| RequestsPost (url : pystr) (headers : list (pystr * pystr)) (data : pystr)
                                             (* requests.post(url, headers=, data=) *)
| Cv2Imdecode (buf : list byte)              (* cv2.imdecode(buf, IMREAD_COLOR) *)
| DeepFaceAnalyze.                           (* DeepFace.analyze(...) *)

(** A computation: the events in the order they happened, and how it ended. *)
Definition run (A : Type) : Type := (list event * outcome A)%type.

Definition ret {A} (a : A) : run A := ([], Returned a).

Definition bind {A B} (m : run A) (f : A -> run B) : run B :=
  match m with
  | (t, Returned a) => let (t', r) := f a in (t ++ t', r)
  | (t, Raised e) => (t, Raised e)
  end.

Definition emit (ev : event) : run unit := ([ev], Returned tt).

Definition lift {A} (o : outcome A) : run A := ([], o).

(** [try: body except ...:] where [handler e] is the body of the first
    clause that matches [e], if there is one. *)
Definition try_except {A} (body : run A)
           (handler : py_exception -> option (run A)) : run A :=
  match body with
  | (t, Returned a) => (t, Returned a)
  | (t, Raised e) =>
      match handler e with
      | Some h => let (t', r) := h in (t ++ t', r)
      | None => (t, Raised e)
      end
  end.

Definition events {A} (r : run A) : list event := fst r.
Definition result {A} (r : run A) : outcome A := snd r.

(** The request bodies a computation sent. *)
Fixpoint posted_data (t : list event) : list pystr :=
  match t with
  | [] => []
  | RequestsPost _ _ data :: rest => data :: posted_data rest
  | _ :: rest => posted_data rest
  end.

End Effects.
Export Effects.

Declare Scope run_scope.
Delimit Scope run_scope with run.
Notation "x <- m ;; k" := (bind m (fun x => k))
  (at level 61, m at next level, right associativity) : run_scope.
Notation "m ;;; k" := (bind m (fun _ => k))
  (at level 61, right associativity) : run_scope.

Declare Scope out_scope.
Delimit Scope out_scope with out.
Notation "x <- m ;; k" := (obind m (fun x => k))
  (at level 61, m at next level, right associativity) : out_scope.

Set Warnings "-inexact-float".

(** ** The program *)

(** What [requests.post] returns: a response, of which the program calls
    [raise_for_status()] and then [json()]. *)
Record response : Type := MkResponse {
  raise_for_status : option py_exception;   (* the HTTPError it raises, if any *)
  json : outcome pyval                      (* response.json() *)
}.

(** What the program reads from its surroundings while it runs: the process
    environment ([os.getenv]) and the remote service behind [requests.post]. *)
Record world : Type := MkWorld {
  getenv : pystr -> option pystr;
  requests_post : pystr -> list (pystr * pystr) -> pystr -> outcome response
}.

(** TextBlob's [sentiment] named tuple. *)
Record sentiment : Type := MkSentiment {
  polarity : float;
  subjectivity : float
}.

(** Whether the script runs on after a module-level statement. *)
Inductive script_state : Type := Running | Stopped.

(** ** Stand-ins

    Simple functions in the place of the libraries, and a few worlds, on
    which the program is run further down. *)

Module Sample.

Definition upper_other (c : codepoint) : pystr := [c].
Definition error_text (c : exc_class) (v : pyval) : pystr := lit "built-in error".
Definition format_value (v : pyval) : pystr := lit "<payload>".
Definition json_dumps (v : pyval) : pystr := lit "<request>".
Definition TextBlob (text : pystr) : sentiment := MkSentiment 0.5%float 0.5%float.
Definition image : Type := list byte.
(** A codec that knows images by the first byte of the PNG signature. *)
Definition cv2_imdecode (buf : list byte) : outcome (option image) :=
  match buf with
  | x89 :: _ => Returned (Some buf)
  | _ => Returned None
  end.
Definition DeepFace_analyze (pixels : image) : outcome pyval :=
  Returned (PyList []).

Definition category : pystr := lit "Technical (Software Engineering)".
Definition answer : pystr := lit "I optimized a query from O(n^2) to O(n log n).".

(** Three bytes that are no image. *)
Definition not_an_image : list byte := [x00; x01; x02].

(** Space, tab, line feed. *)
Definition whitespace : pystr := [32; 9; 10]%N.

Definition no_variables (name : pystr) : option pystr := None.

Definition set_to (value : pystr) (name : pystr) : option pystr :=
  if pystr_eqb name (lit "AI_INTERVIEW_COACH_AUTHORIZED_DEPLOYMENT")
  then Some value else None.

(** The service cannot be reached. *)
Definition offline : world :=
  MkWorld no_variables
          (fun _ _ _ => Raised (MkException RequestException (lit "connection refused"))).

(** The process is interrupted while the request is under way. *)
Definition interrupted : world :=
  MkWorld no_variables (fun _ _ _ => Raised (MkException NonException [])).

(** The service answers with a status that is no error and the body [body]. *)
Definition answering (body : pyval) : world :=
  MkWorld no_variables (fun _ _ _ => Returned (MkResponse None (Returned body))).

(** [{}] *)
Definition empty_object : pyval := PyDict [].

(** [[]] *)
Definition empty_array : pyval := PyList [].

(** [{"candidates": [{"content": {"parts": [{}]}}]}] *)
Definition part_without_text : pyval :=
  PyDict [(lit "candidates",
           PyList [PyDict [(lit "content",
                            PyDict [(lit "parts", PyList [PyDict []])])]])].

End Sample.

(** ** The application *)

Section App.

(** The library functions the program calls, as parameters. *)
Variable upper_other : codepoint -> pystr.        (* str.upper outside ASCII *)
Variable error_text : exc_class -> pyval -> pystr. (* text of a built-in error *)
Variable format_value : pyval -> pystr.           (* f"{v}" *)
Variable json_dumps : pyval -> pystr.             (* json.dumps(v) *)
Variable TextBlob : pystr -> sentiment.           (* TextBlob(text).sentiment *)
Variable image : Type.                            (* a decoded pixel grid *)
Variable cv2_imdecode : list byte -> outcome (option image).
Variable DeepFace_analyze : image -> outcome pyval.

Local Open Scope run_scope.

(** *** Deployment gate (lines 17-30) *)

Definition getenv_default (w : world) (name default : pystr) : pystr :=
  match getenv w name with
  | Some v => v
  | None => default
  end.

Definition AUTHORIZED_DEPLOYMENT_FLAG (w : world) : pystr :=
  upper upper_other
    (getenv_default w (lit "AI_INTERVIEW_COACH_AUTHORIZED_DEPLOYMENT") (lit "FALSE")).

Definition unauthorized_message : pystr :=
  [newline]
  ++ line "    **Unauthorized Deployment Detected!**"
  ++ line "    This AI Interview Coach application is intended for personal and educational use."
  ++ line "    Public deployment or redistribution requires explicit permission from the original author."
  ++ line ""
  ++ line "    If you are the authorized deployer, please ensure the environment variable"
  ++ line "    `AI_INTERVIEW_COACH_AUTHORIZED_DEPLOYMENT` is set to `TRUE`."
  ++ line ""
  ++ line "    The application will not proceed without proper authorization."
  ++ lit "    ".

Definition deployment_gate (w : world) : run script_state :=
  if negb (pystr_eqb (AUTHORIZED_DEPLOYMENT_FLAG w) (lit "TRUE")) then
    emit (StError unauthorized_message) ;;;
    emit StStop ;;;
    ret Stopped
  else ret Running.

(** *** API key (lines 33-41) *)

Definition gemini_api_key (w : world) : pystr :=
  getenv_default w (lit "GEMINI_API_KEY") [].

(** *** [generate_feedback] (lines 45-110) *)

(** The f-string of lines 53-70. *)
Definition prompt (category answer : pystr) : pystr :=
  [newline]
  ++ line "    You are an AI Interview Coach. Your goal is to provide constructive and detailed feedback"
  ++ lit "    on interview answers. The user has provided an answer for a question in the '"
  ++ category ++ line "' category."
  ++ line ""
  ++ line "    Please analyze the following aspects of the answer:"
  ++ line "    1.  **Content and Relevance:** Is the answer directly addressing the question? Is it comprehensive?"
  ++ line "    2.  **Structure and Clarity:** Is the answer well-organized, logical, and easy to understand?"
  ++ line "    3.  **Conciseness:** Is the answer to the point without unnecessary jargon or rambling?"
  ++ line "    4.  **Impact and Examples:** Does the answer provide specific examples or demonstrate impact where appropriate (e.g., STAR method for behavioral questions)?"
  ++ line "    5.  **Strengths:** What did the user do well?"
  ++ line "    6.  **Areas for Improvement:** What could the user improve? Be specific and actionable."
  ++ line "    7.  **Overall Score/Rating:** Provide a simple rating (e.g., 1-5, or Poor, Fair, Good, Excellent)."
  ++ line ""
  ++ lit "    Interview Category: " ++ category ++ [newline]
  ++ lit "    User's Answer: " ++ [dquote] ++ answer ++ [dquote; newline]
  ++ line ""
  ++ line "    Please provide your feedback in a clear, markdown-formatted response."
  ++ lit "    ".

Definition api_url (w : world) : pystr :=
  lit "https://generativelanguage.googleapis.com/v1beta/models/gemini-2.0-flash:generateContent?key="
  ++ gemini_api_key w.

Definition chatHistory (category answer : pystr) : pyval :=
  PyList [PyDict [(lit "role", PyStr (lit "user"));
                  (lit "parts", PyList [PyDict [(lit "text", PyStr (prompt category answer))]])]].

Definition payload (category answer : pystr) : pyval :=
  PyDict [(lit "contents", chatHistory category answer);
          (lit "generationConfig",
           PyDict [(lit "maxOutputTokens", PyInt 800);
                   (lit "temperature", PyFloat 0.7%float)])].

Definition headers : list (pystr * pystr) :=
  [(lit "Content-Type", lit "application/json")].

(** The condition of lines 93-95. *)
Definition candidates_present (result : pyval) : outcome bool :=
  and_then
    (c <- get error_text result (lit "candidates") ;; Returned (truthy c))%out
  (and_then
    (c <- getitem error_text result (lit "candidates") ;;
     n <- len error_text c ;;
     Returned (0 <? n)%Z)%out
  (and_then
    (c <- getitem error_text result (lit "candidates") ;;
     c0 <- getitem0 error_text c ;;
     ct <- get error_text c0 (lit "content") ;;
     Returned (truthy ct))%out
  (and_then
    (c <- getitem error_text result (lit "candidates") ;;
     c0 <- getitem0 error_text c ;;
     ct <- getitem error_text c0 (lit "content") ;;
     ps <- get error_text ct (lit "parts") ;;
     Returned (truthy ps))%out
    (c <- getitem error_text result (lit "candidates") ;;
     c0 <- getitem0 error_text c ;;
     ct <- getitem error_text c0 (lit "content") ;;
     ps <- getitem error_text ct (lit "parts") ;;
     n <- len error_text ps ;;
     Returned (0 <? n)%Z)%out))).

(** The expression of line 96. *)
Definition first_candidate_text (result : pyval) : outcome pyval :=
  (c <- getitem error_text result (lit "candidates") ;;
   c0 <- getitem0 error_text c ;;
   ct <- getitem error_text c0 (lit "content") ;;
   ps <- getitem error_text ct (lit "parts") ;;
   p0 <- getitem0 error_text ps ;;
   getitem error_text p0 (lit "text"))%out.

Definition validation_message : pystr :=
  lit "Please provide an answer to receive feedback.".
Definition parsing_message : pystr :=
  lit "An error occurred while parsing Gemini feedback. Please try again.".
Definition connecting_message : pystr :=
  lit "An error occurred while connecting to Gemini API. Please check your network or API key.".
Definition processing_message : pystr :=
  lit "An error occurred while processing Gemini feedback. Please try again.".
Definition unexpected_message : pystr :=
  lit "An unexpected error occurred. Please try again.".

(** The [except] clauses of lines 102-110, tried in order. *)
Definition feedback_handler (e : py_exception) : option (run pyval) :=
  if is_RequestException e then
    Some (emit (StError (lit "Gemini API Request Error: " ++ exc_text e)) ;;;
          ret (PyStr connecting_message))
  else if is_JSONDecodeError e then
    Some (emit (StError (lit "Failed to decode JSON response from Gemini API: " ++ exc_text e)) ;;;
          ret (PyStr processing_message))
  else if is_Exception e then
    Some (emit (StError (lit "An unexpected error occurred: " ++ exc_text e)) ;;;
          ret (PyStr unexpected_message))
  else None.

(** Lines 93-100: the parsed response is checked and the text taken out. *)
Definition extract_feedback (result : pyval) : run pyval :=
  ok <- lift (candidates_present result) ;;
  if ok : bool then
    feedback <- lift (first_candidate_text result) ;;
    ret feedback
  else
    emit (StError (lit "Gemini API response structure unexpected: "
                   ++ format_value result)) ;;;
    ret (PyStr parsing_message).

(** The body of the [try] block, lines 88-100. *)
Definition feedback_exchange (w : world) (category answer : pystr) : run pyval :=
  emit (StSpinner (lit "Generating feedback with AI (Gemini)...")) ;;;
  emit (RequestsPost (api_url w) headers (json_dumps (payload category answer))) ;;;
  response <- lift (requests_post w (api_url w) headers
                                  (json_dumps (payload category answer))) ;;
  lift (match raise_for_status response with
        | Some e => Raised e
        | None => Returned tt
        end) ;;;
  result <- lift (json response) ;;
  extract_feedback result.

Definition generate_feedback (w : world) (category answer : pystr) : run pyval :=
  if negb (truthy (PyStr (strip answer))) then
    ret (PyStr validation_message)
  else
    try_except (feedback_exchange w category answer) feedback_handler.

(** *** [analyze_sentiment] (lines 112-124) *)

Definition analyze_sentiment (text : pystr) : pyval :=
  if negb (truthy (PyStr (strip text))) then
    PyDict [(lit "polarity", PyFloat 0%float); (lit "subjectivity", PyFloat 0%float)]
  else
    let analysis := TextBlob text in
    PyDict [(lit "polarity", PyFloat (polarity analysis));
            (lit "subjectivity", PyFloat (subjectivity analysis))].

(** *** [analyze_emotion_from_image] (lines 126-160)

    The function returns a pair: the dominant emotion and its scores, or
    [None] and a message.  [image_bytes] is [None] or a [bytes] object, of
    which [np.frombuffer(_, np.uint8)] is the array of the same bytes. *)

Definition no_image_message : pystr := lit "No image provided.".
Definition decode_message : pystr :=
  lit "Could not decode image. Please try another picture.".
Definition no_face_message : pystr := lit "No face detected in the image.".

Definition emotion_handler (e : py_exception) : option (run (pyval * pyval)) :=
  if is_Exception e then
    Some (emit (StError (lit "Error analyzing image for emotions: " ++ exc_text e)) ;;;
          ret (PyNone,
               PyStr (lit "An error occurred during emotion analysis: " ++ exc_text e)))
  else None.

(** The body of the [try] block, lines 135-156. *)
Definition emotion_analysis (image_bytes : list byte) : run (pyval * pyval) :=
  let np_array := image_bytes in
  emit (Cv2Imdecode np_array) ;;;
  img <- lift (cv2_imdecode np_array) ;;
  match img with
  | None => ret (PyNone, PyStr decode_message)
  | Some pixels =>
      emit (StSpinner (lit "Analyzing facial emotions...")) ;;;
      emit DeepFaceAnalyze ;;;
      demographies <- lift (DeepFace_analyze pixels) ;;
      if truthy demographies then
        dominant_emotion <- lift (d0 <- getitem0 error_text demographies ;;
                                  getitem error_text d0 (lit "dominant_emotion"))%out ;;
        emotion_scores <- lift (d0 <- getitem0 error_text demographies ;;
                                getitem error_text d0 (lit "emotion"))%out ;;
        ret (dominant_emotion, emotion_scores)
      else ret (PyNone, PyStr no_face_message)
  end.

Definition analyze_emotion_from_image (image_bytes : option (list byte))
  : run (pyval * pyval) :=
  match image_bytes with
  | None => ret (PyNone, PyStr no_image_message)
  | Some buf => try_except (emotion_analysis buf) emotion_handler
  end.

(** ** The specification's vocabulary *)

(** The categories the selector offers (line 176). *)
Definition categories : list pystr :=
  [lit "HR (Human Resources)"; lit "Technical (Software Engineering)";
   lit "Behavioral (STAR Method)"; lit "Product Management"; lit "Data Science"].

(** The seven evaluation dimensions, as the instruction document names them. *)
Definition dimensions : list pystr :=
  [lit "1.  **Content and Relevance:**"; lit "2.  **Structure and Clarity:**";
   lit "3.  **Conciseness:**"; lit "4.  **Impact and Examples:**";
   lit "5.  **Strengths:**"; lit "6.  **Areas for Improvement:**";
   lit "7.  **Overall Score/Rating:**"].

(** The candidate text of a response body, read as the specification
    describes it: [candidates] is an array whose first element nests
    [content.parts[0].text], objects and arrays where those are expected. *)
Definition field (k : pystr) (v : pyval) : option pyval :=
  match v with
  | PyDict d => lookup k d
  | _ => None
  end.

Definition first (v : pyval) : option pyval :=
  match v with
  | PyList (x :: _) => Some x
  | _ => None
  end.

Definition option_bind {A B} (o : option A) (f : A -> option B) : option B :=
  match o with
  | Some a => f a
  | None => None
  end.

Definition candidate_text (body : pyval) : option pyval :=
  option_bind (field (lit "candidates") body) (fun c =>
  option_bind (first c) (fun c0 =>
  option_bind (field (lit "content") c0) (fun ct =>
  option_bind (field (lit "parts") ct) (fun ps =>
  option_bind (first ps) (fun p0 =>
  field (lit "text") p0))))).

(** A field of an object is missing or empty: absent, or present with a
    value Python counts as false ([None], an empty array, object or string,
    zero, [false]). *)
Definition missing_or_empty (k : pystr) (v : pyval) : bool :=
  match field k v with
  | Some x => negb (truthy x)
  | None => true
  end.

(** The responses the presence checks of lines 93-95 turn away: an object
    whose [candidates] is missing or empty, or whose first candidate is an
    object with [content] missing or empty, or whose content is an object
    with [parts] missing or empty. *)
Definition schema_gap (body : pyval) : bool :=
  match body with
  | PyDict _ =>
      if missing_or_empty (lit "candidates") body then true
      else
        match option_bind (field (lit "candidates") body) first with
        | Some (PyDict c0) =>
            if missing_or_empty (lit "content") (PyDict c0) then true
            else
              match field (lit "content") (PyDict c0) with
              | Some (PyDict ct) => missing_or_empty (lit "parts") (PyDict ct)
              | _ => false
              end
        | _ => false
        end
  | _ => false
  end.

(** The library calls of the [try] block of [generate_feedback] and the
    exception each may raise there. *)
Definition exchange_raises (w : world) (category answer : pystr)
  : option py_exception :=
  match requests_post w (api_url w) headers (json_dumps (payload category answer)) with
  | Raised e => Some e
  | Returned resp =>
      match raise_for_status resp with
      | Some e => Some e
      | None =>
          match json resp with
          | Raised e => Some e
          | Returned _ => None
          end
      end
  end.

(** The response [requests] builds for a status code.  Its
    [raise_for_status()] raises [HTTPError], one of the [RequestException]s,
    exactly for the client and server error codes, 400 to 599, as
    [requests/models.py] has it; for every other code it does nothing.
    [http_error] is the text of the error. *)
Definition status_is_error (status_code : Z) : bool :=
  ((400 <=? status_code) && (status_code <? 600))%Z.

Definition status_is_2xx (status_code : Z) : bool :=
  ((200 <=? status_code) && (status_code <? 300))%Z.

Definition requests_response (status_code : Z) (http_error : pystr)
           (body : outcome pyval) : response :=
  MkResponse (if status_is_error status_code
              then Some (MkException RequestException http_error)
              else None)
             body.

(** How the codec fails on a buffer: it returns [None], or it raises an
    [Exception] ([cv2.error]). *)
Inductive decode_failure : Type :=
| NoImage
| CodecError (e : py_exception).

Definition failed_decoding (buf : list byte) : option decode_failure :=
  match cv2_imdecode buf with
  | Returned None => Some NoImage
  | Returned (Some _) => None
  | Raised e => if is_Exception e then Some (CodecError e) else None
  end.

(** The body of the response, when the exchange delivers one that parses. *)
Definition parsed_body (w : world) (category answer : pystr) : option pyval :=
  match requests_post w (api_url w) headers (json_dumps (payload category answer)) with
  | Returned resp =>
      match raise_for_status resp, json resp with
      | None, Returned body => Some body
      | _, _ => None
      end
  | Raised _ => None
  end.

(** The events every exchange starts with: the spinner and the one request. *)
Definition exchange_opening (w : world) (category answer : pystr) : list event :=
  [StSpinner (lit "Generating feedback with AI (Gemini)...");
   RequestsPost (api_url w) headers (json_dumps (payload category answer))].

(** The exceptions the operations on values raise: caught by the last
    [except] clause only. *)
Definition builtin_class (e : py_exception) : bool :=
  negb (is_RequestException e) && negb (is_JSONDecodeError e) && is_Exception e.

(** The message the matching [except] clause returns. *)
Definition handler_message (e : py_exception) : pystr :=
  if is_RequestException e then connecting_message
  else if is_JSONDecodeError e then processing_message
  else unexpected_message.

Definition handler_report (e : py_exception) : pystr :=
  (if is_RequestException e then lit "Gemini API Request Error: "
   else if is_JSONDecodeError e then lit "Failed to decode JSON response from Gemini API: "
   else lit "An unexpected error occurred: ") ++ exc_text e.

(** *** The parts of the instruction document *)

(** The fixed text between the two places the category is written. *)
Definition aspects : pystr :=
  line "' category."
  ++ line ""
  ++ line "    Please analyze the following aspects of the answer:"
  ++ line "    1.  **Content and Relevance:** Is the answer directly addressing the question? Is it comprehensive?"
  ++ line "    2.  **Structure and Clarity:** Is the answer well-organized, logical, and easy to understand?"
  ++ line "    3.  **Conciseness:** Is the answer to the point without unnecessary jargon or rambling?"
  ++ line "    4.  **Impact and Examples:** Does the answer provide specific examples or demonstrate impact where appropriate (e.g., STAR method for behavioral questions)?"
  ++ line "    5.  **Strengths:** What did the user do well?"
  ++ line "    6.  **Areas for Improvement:** What could the user improve? Be specific and actionable."
  ++ line "    7.  **Overall Score/Rating:** Provide a simple rating (e.g., 1-5, or Poor, Fair, Good, Excellent)."
  ++ line "".

Definition prompt_head : pystr :=
  [newline]
  ++ line "    You are an AI Interview Coach. Your goal is to provide constructive and detailed feedback"
  ++ lit "    on interview answers. The user has provided an answer for a question in the '".

Definition prompt_tail : pystr :=
  line ""
  ++ line "    Please provide your feedback in a clear, markdown-formatted response."
  ++ lit "    ".

(** ** Strings: stripping and substrings *)

Lemma pystr_eqb_eq (a b : pystr) : pystr_eqb a b = true <-> a = b.
Proof.
  revert b. induction a as [|x a IH]; intros [|y b]; simpl; try easy.
  rewrite andb_true_iff, N.eqb_eq, IH. split.
  - intros [-> ->]. reflexivity.
  - intros [= -> ->]. split; reflexivity.
Qed.

Lemma pystr_eqb_neq (a b : pystr) : pystr_eqb a b = false <-> a <> b.
Proof.
  rewrite <- pystr_eqb_eq. destruct (pystr_eqb a b); split; congruence.
Qed.

Lemma lstrip_nil_blank (s : pystr) : lstrip s = [] <-> blank s = true.
Proof.
  induction s as [|c s IH]; simpl.
  - tauto.
  - destruct (isspace c); simpl.
    + exact IH.
    + split; discriminate.
Qed.

Lemma blank_rev (s : pystr) : blank (rev s) = blank s.
Proof.
  unfold blank. induction s as [|c s IH]; simpl; [reflexivity|].
  rewrite forallb_app, IH. simpl. rewrite andb_true_r. apply andb_comm.
Qed.

(** What [lstrip] removes is a blank prefix. *)
Lemma lstrip_suffix (s : pystr) : exists p, s = p ++ lstrip s /\ blank p = true.
Proof.
  induction s as [|c s [p [Hp Hb]]]; simpl.
  - exists []. split; reflexivity.
  - destruct (isspace c) eqn:Hc.
    + exists (c :: p). simpl. rewrite Hc, Hb. split; [congruence | reflexivity].
    + exists []. split; reflexivity.
Qed.

(** [not s.strip()] holds exactly of the blank strings. *)
Lemma strip_nil_blank (s : pystr) : strip s = [] <-> blank s = true.
Proof.
  unfold strip, rstrip. split.
  - intros H.
    assert (Hl : lstrip (rev (lstrip s)) = []).
    { destruct (lstrip (rev (lstrip s))); [reflexivity|].
      apply (f_equal (@List.length _)) in H. rewrite length_rev in H. discriminate. }
    apply lstrip_nil_blank in Hl. rewrite blank_rev in Hl.
    destruct (lstrip_suffix s) as [p [Hp Hb]].
    rewrite Hp. unfold blank in *. rewrite forallb_app, Hb, Hl. reflexivity.
  - intros H. apply lstrip_nil_blank in H. rewrite H. reflexivity.
Qed.

Lemma not_strip_blank (s : pystr) : negb (truthy (PyStr (strip s))) = blank s.
Proof.
  destruct (blank s) eqn:Hb.
  - apply strip_nil_blank in Hb. rewrite Hb. reflexivity.
  - simpl. destruct (strip s) eqn:Hs; [|reflexivity].
    apply strip_nil_blank in Hs. congruence.
Qed.

Lemma prefixb_sound (x s : pystr) : prefixb x s = true -> s = x ++ skipn (List.length x) s.
Proof.
  revert s. induction x as [|a x IH]; intros [|b s]; simpl; try easy.
  intros H. apply andb_prop in H. destruct H as [Hab Hx].
  apply N.eqb_eq in Hab. subst b. f_equal. now apply IH.
Qed.

Lemma in_order_cons_l (ds : list pystr) (c : codepoint) (s : pystr) :
  in_order ds s -> in_order ds (c :: s).
Proof.
  destruct ds as [|d ds]; simpl; [trivial|].
  intros [p [q [Hs Hq]]]. exists (c :: p), q. split; [|exact Hq].
  rewrite Hs. reflexivity.
Qed.

Lemma in_orderb_from_sound (fuel : nat) (ds : list pystr) (s : pystr) :
  in_orderb_from fuel ds s = true -> in_order ds s.
Proof.
  revert ds s. induction fuel as [|fuel IH]; intros [|d ds] s; simpl; try easy.
  destruct (prefixb d s) eqn:Hp.
  - intros H. exists [], (skipn (List.length d) s). split.
    + simpl. now apply prefixb_sound.
    + now apply IH.
  - destruct s as [|c s]; [discriminate|].
    intros H. apply (in_order_cons_l (d :: ds)). now apply IH.
Qed.

Lemma in_orderb_sound (ds : list pystr) (s : pystr) :
  in_orderb ds s = true -> in_order ds s.
Proof. apply in_orderb_from_sound. Qed.

Lemma in_order_app_r (ds : list pystr) (s q : pystr) :
  in_order ds s -> in_order ds (s ++ q).
Proof.
  revert s. induction ds as [|d ds IH]; intros s; simpl; [trivial|].
  intros [p [r [Hs Hr]]]. exists p, (r ++ q). split.
  - rewrite Hs. now rewrite <- !app_assoc.
  - now apply IH.
Qed.

Lemma in_order_app_l (ds : list pystr) (p s : pystr) :
  in_order ds s -> in_order ds (p ++ s).
Proof.
  induction p as [|c p IH]; simpl; [trivial|].
  intros H. apply in_order_cons_l. now apply IH.
Qed.

(** ** The instruction document *)

Opaque lit.

(** The document is the fixed text with the category written twice and the
    answer once, between double quotes. *)
Lemma prompt_shape (category answer : pystr) :
  prompt category answer =
  prompt_head ++ category ++ aspects
  ++ (lit "    Interview Category: " ++ category ++ [newline])
  ++ (lit "    User's Answer: " ++ [dquote] ++ answer ++ [dquote; newline])
  ++ prompt_tail.
Proof.
  unfold prompt, prompt_head, aspects, prompt_tail, line.
  rewrite <- !app_assoc. reflexivity.
Qed.

Transparent lit.

Lemma aspects_dimensions : in_order dimensions aspects.
Proof. apply in_orderb_sound. vm_compute. reflexivity. Qed.

(** ** Running [generate_feedback] *)

Lemma generate_feedback_blank (w : world) (category answer : pystr) :
  blank answer = true ->
  generate_feedback w category answer = ret (PyStr validation_message).
Proof.
  intros Hb. unfold generate_feedback. rewrite not_strip_blank, Hb. reflexivity.
Qed.

Lemma generate_feedback_nonblank (w : world) (category answer : pystr) :
  blank answer = false ->
  generate_feedback w category answer =
  try_except (feedback_exchange w category answer) feedback_handler.
Proof.
  intros Hb. unfold generate_feedback. rewrite not_strip_blank, Hb. reflexivity.
Qed.

Lemma feedback_exchange_opening (w : world) (category answer : pystr) :
  exists t r, feedback_exchange w category answer
              = (exchange_opening w category answer ++ t, r)
              /\ posted_data t = [].
Proof.
  unfold feedback_exchange, exchange_opening, emit, lift, bind, ret.
  destruct (requests_post _ _ _ _) as [resp|e]; simpl.
  2:{ exists [], (Raised e). split; reflexivity. }
  destruct (raise_for_status resp) as [e|]; simpl.
  { exists [], (Raised e). split; reflexivity. }
  destruct (json resp) as [body|e]; simpl.
  2:{ exists [], (Raised e). split; reflexivity. }
  unfold extract_feedback, emit, lift, bind, ret.
  destruct (candidates_present body) as [[|]|e]; simpl.
  - destruct (first_candidate_text body) as [t|e]; simpl; eexists; eexists;
      (split; [reflexivity|reflexivity]).
  - eexists; eexists; (split; [reflexivity|reflexivity]).
  - eexists; eexists; (split; [reflexivity|reflexivity]).
Qed.

Lemma posted_data_app (t u : list event) :
  posted_data (t ++ u) = posted_data t ++ posted_data u.
Proof.
  induction t as [|ev t IH]; simpl; [reflexivity|].
  destruct ev; simpl; rewrite IH; reflexivity.
Qed.

Lemma feedback_handler_quiet (e : py_exception) (h : run pyval) :
  feedback_handler e = Some h -> posted_data (events h) = [].
Proof.
  unfold feedback_handler.
  destruct (is_RequestException e); [intros [= <-]; reflexivity|].
  destruct (is_JSONDecodeError e); [intros [= <-]; reflexivity|].
  destruct (is_Exception e); [intros [= <-]; reflexivity|discriminate].
Qed.

Lemma generate_feedback_posts (w : world) (category answer : pystr) :
  posted_data (events (generate_feedback w category answer))
  = if blank answer then [] else [json_dumps (payload category answer)].
Proof.
  destruct (blank answer) eqn:Hb.
  - rewrite generate_feedback_blank by assumption. reflexivity.
  - rewrite generate_feedback_nonblank by assumption.
    destruct (feedback_exchange_opening w category answer) as [t [r [Hx Ht]]].
    rewrite Hx. unfold try_except, exchange_opening, events.
    destruct r as [v|e]; simpl.
    + now rewrite Ht.
    + destruct (feedback_handler e) as [[t' r']|] eqn:Hh; simpl.
      * apply feedback_handler_quiet in Hh. simpl in Hh.
        rewrite posted_data_app, Ht, Hh. reflexivity.
      * now rewrite Ht.
Qed.

(** ** Reading the response (lines 93-100) *)

Ltac unfold_reading :=
  unfold extract_feedback, candidates_present, first_candidate_text,
    candidate_text, schema_gap, missing_or_empty, field, first, option_bind,
    get, getitem, getitem0, len, and_then, obind, builtin_error,
    lift, bind, emit, ret.

Ltac use_facts :=
  repeat match goal with
    | H : ?l = _ |- context [?l] => rewrite H
    end.

Ltac eval_reading :=
  unfold_reading; repeat (cbn -[truthy lookup]; use_facts).

Ltac leaf :=
  eval_reading;
  first [ reflexivity
        | eexists; split; reflexivity
        | discriminate ].

Opaque lit.

Lemma reading_cases (body : pyval) :
  match candidate_text body, schema_gap body with
  | Some t, false => extract_feedback body = ([], Returned t)
  | Some _, true => False
  | None, true =>
      extract_feedback body =
      ([StError (lit "Gemini API response structure unexpected: "
                 ++ format_value body)],
       Returned (PyStr parsing_message))
  | None, false =>
      exists e, extract_feedback body = ([], Raised e) /\ builtin_class e = true
  end.
Proof.
  destruct body as [| | | | | |d]; try solve [leaf].
  destruct (lookup (lit "candidates") d) as [c|] eqn:Hc; [|leaf].
  destruct c as [|[|]|z|f|[|a s]|[|c0 cs]|[|kv cd]]; try solve [leaf].
  { destruct (truthy (PyInt z)) eqn:Tc; leaf. }
  { destruct (truthy (PyFloat f)) eqn:Tc; leaf. }
  destruct c0 as [| | | | | |d0]; try solve [leaf].
  destruct (lookup (lit "content") d0) as [ct|] eqn:Hct; [|leaf].
  destruct ct as [|[|]|z|f|[|a s]|[|x xs]|[|kv d1]]; try solve [leaf].
  { destruct (truthy (PyInt z)) eqn:Tc; leaf. }
  { destruct (truthy (PyFloat f)) eqn:Tc; leaf. }
  destruct (lookup (lit "parts") (kv :: d1)) as [ps|] eqn:Hps; [|leaf].
  destruct ps as [|[|]|z|f|[|a s]|[|p0 ps]|[|kp pd]]; try solve [leaf].
  { destruct (truthy (PyInt z)) eqn:Tc; leaf. }
  { destruct (truthy (PyFloat f)) eqn:Tc; leaf. }
  destruct p0 as [| | | | | |d2]; try solve [leaf].
  destruct (lookup (lit "text") d2) as [t|] eqn:Ht; leaf.
Qed.

(** A response with the text where the specification puts it is a success:
    the text is returned as it is. *)
Lemma extract_feedback_text (body t : pyval) :
  candidate_text body = Some t -> extract_feedback body = ([], Returned t).
Proof.
  intros H. pose proof (reading_cases body) as R. rewrite H in R.
  destruct (schema_gap body); [contradiction | exact R].
Qed.

(** A response the presence checks turn away lacks the text, and is
    reported with its payload. *)
Lemma schema_gap_no_text (body : pyval) :
  schema_gap body = true -> candidate_text body = None.
Proof.
  intros H. pose proof (reading_cases body) as R. rewrite H in R.
  destruct (candidate_text body); [contradiction | reflexivity].
Qed.

Lemma extract_feedback_gap (body : pyval) :
  schema_gap body = true ->
  extract_feedback body =
  ([StError (lit "Gemini API response structure unexpected: " ++ format_value body)],
   Returned (PyStr parsing_message)).
Proof.
  intros H. pose proof (reading_cases body) as R.
  rewrite (schema_gap_no_text body H), H in R. exact R.
Qed.

(** Any other response without the text makes one of the operations of
    lines 93-96 raise a built-in error. *)
Lemma extract_feedback_broken (body : pyval) :
  candidate_text body = None -> schema_gap body = false ->
  exists e, extract_feedback body = ([], Raised e) /\ builtin_class e = true.
Proof.
  intros H G. pose proof (reading_cases body) as R. rewrite H, G in R. exact R.
Qed.

Transparent lit.

(** ** The exchange as a whole *)

Lemma exchange_raised (w : world) (category answer : pystr) (e : py_exception) :
  exchange_raises w category answer = Some e ->
  feedback_exchange w category answer
  = (exchange_opening w category answer, Raised e).
Proof.
  unfold exchange_raises, feedback_exchange, exchange_opening, emit, lift, bind.
  destruct (requests_post _ _ _ _) as [resp|e']; simpl.
  2:{ intros [= ->]. reflexivity. }
  destruct (raise_for_status resp) as [e'|]; simpl.
  { intros [= ->]. reflexivity. }
  destruct (json resp) as [body|e']; simpl; [discriminate|].
  intros [= ->]. reflexivity.
Qed.

Lemma exchange_parsed (w : world) (category answer : pystr) (body : pyval) :
  parsed_body w category answer = Some body ->
  feedback_exchange w category answer
  = (exchange_opening w category answer ++ events (extract_feedback body),
     result (extract_feedback body)).
Proof.
  unfold parsed_body, feedback_exchange, exchange_opening, emit, lift, bind.
  destruct (requests_post _ _ _ _) as [resp|e']; simpl; [|discriminate].
  destruct (raise_for_status resp) as [e'|]; simpl; [discriminate|].
  destruct (json resp) as [b|e']; simpl; [|discriminate].
  intros [= ->]. destruct (extract_feedback body) as [t r]. reflexivity.
Qed.

(** Either a library call of the exchange raises, or there is a parsed body. *)
Lemma exchange_raises_or_parsed (w : world) (category answer : pystr) :
  (exists e, exchange_raises w category answer = Some e)
  \/ (exchange_raises w category answer = None
      /\ exists body, parsed_body w category answer = Some body).
Proof.
  unfold exchange_raises, parsed_body.
  destruct (requests_post _ _ _ _) as [resp|e]; [|left; now exists e].
  destruct (raise_for_status resp) as [e|]; [left; now exists e|].
  destruct (json resp) as [body|e]; [|left; now exists e].
  right. split; [reflexivity | now exists body].
Qed.

Lemma feedback_handler_caught (e : py_exception) :
  is_Exception e = true ->
  feedback_handler e
  = Some ([StError (handler_report e)], Returned (PyStr (handler_message e))).
Proof.
  intros He. unfold feedback_handler, handler_report, handler_message.
  destruct (is_RequestException e); [reflexivity|].
  destruct (is_JSONDecodeError e); [reflexivity|].
  rewrite He. reflexivity.
Qed.

Lemma feedback_handler_passes (e : py_exception) :
  is_Exception e = false -> feedback_handler e = None.
Proof.
  unfold feedback_handler, is_RequestException, is_JSONDecodeError, is_Exception.
  destruct (exc_class_of e); try discriminate. reflexivity.
Qed.

Lemma builtin_class_handled (e : py_exception) :
  builtin_class e = true ->
  feedback_handler e
  = Some ([StError (lit "An unexpected error occurred: " ++ exc_text e)],
          Returned (PyStr unexpected_message)).
Proof.
  unfold builtin_class, feedback_handler. intros H.
  apply andb_prop in H. destruct H as [H He].
  apply andb_prop in H. destruct H as [Hr Hj].
  apply negb_true_iff in Hr. apply negb_true_iff in Hj.
  rewrite Hr, Hj, He. reflexivity.
Qed.

(** The exchange gave a parsed body with the text: the text is the result. *)
Lemma response_with_text (w : world) (category answer : pystr) (body t : pyval) :
  blank answer = false ->
  parsed_body w category answer = Some body ->
  candidate_text body = Some t ->
  generate_feedback w category answer
  = (exchange_opening w category answer, Returned t).
Proof.
  intros Hb Hp Ht.
  rewrite generate_feedback_nonblank by assumption.
  rewrite (exchange_parsed _ _ _ Hp), (extract_feedback_text _ Ht).
  unfold try_except, events, result. simpl. rewrite ?app_nil_r. reflexivity.
Qed.

(** X3. An exception outside [Exception] that a library call of the
    exchange raises passes through the three clauses: the call raises it,
    after the spinner and the request and without an [st.error]. *)
Lemma non_exception_propagates (w : world) (category answer : pystr) (e : py_exception) :
  blank answer = false ->
  exchange_raises w category answer = Some e ->
  is_Exception e = false ->
  generate_feedback w category answer
  = (exchange_opening w category answer, Raised e).
Proof.
  intros Hb Hr He.
  rewrite generate_feedback_nonblank by assumption.
  rewrite (exchange_raised _ _ _ Hr). unfold try_except.
  now rewrite (feedback_handler_passes _ He).
Qed.

(** ** The claims *)

(** C1. A blank answer (empty, or whitespace only) is answered with the
    fixed validation message, whatever the category, and nothing is sent:
    the call emits no event at all, so no request. *)
Theorem blank_answer_rejected (w : world) (category answer : pystr) :
  blank answer = true ->
  result (generate_feedback w category answer)
  = Returned (PyStr (lit "Please provide an answer to receive feedback."))
  /\ events (generate_feedback w category answer) = [].
Proof.
  intros Hb. rewrite generate_feedback_blank by assumption. split; reflexivity.
Qed.

(** C2, as amended. When the response parses but has no candidate text,
    the call neither raises nor succeeds: it reports through [st.error] and
    returns a fixed message.  Where [candidates], [content] or [parts] is
    missing or empty in the objects the code inspects, the report carries the
    raw payload and the message is the parsing one.  For any other shape
    without the text, one of the operations of lines 93-96 raises a built-in
    error, which only the last clause catches: the report is "An unexpected
    error occurred: " with the text of that error, and the message is the
    one for unexpected errors. *)
Theorem response_without_text (w : world) (category answer : pystr) (body : pyval) :
  blank answer = false ->
  parsed_body w category answer = Some body ->
  candidate_text body = None ->
  exists report,
    generate_feedback w category answer
    = (exchange_opening w category answer ++ [StError report],
       Returned (PyStr (if schema_gap body
                        then lit "An error occurred while parsing Gemini feedback. Please try again."
                        else lit "An unexpected error occurred. Please try again.")))
    /\ (schema_gap body = true ->
        report = lit "Gemini API response structure unexpected: " ++ format_value body)
    /\ (schema_gap body = false ->
        exists e, extract_feedback body = ([], Raised e)
                  /\ builtin_class e = true
                  /\ report = lit "An unexpected error occurred: " ++ exc_text e).
Proof.
  intros Hb Hp Ht.
  rewrite generate_feedback_nonblank by assumption.
  rewrite (exchange_parsed _ _ _ Hp).
  destruct (schema_gap body) eqn:Hg.
  - rewrite (extract_feedback_gap _ Hg).
    eexists. split; [reflexivity|]. split; [intros _; reflexivity | discriminate].
  - destruct (extract_feedback_broken _ Ht Hg) as [e [He Hc]].
    rewrite He. unfold try_except, events, result. simpl.
    rewrite (builtin_class_handled _ Hc). rewrite ?app_nil_r.
    eexists. split; [reflexivity|]. split; [discriminate|].
    intros _. exists e. split; [reflexivity|]. split; [exact Hc | reflexivity].
Qed.

(** C3, as amended. When the one [requests.post] raises a
    [RequestException] (a connection error), or the response has a status
    code from 400 to 599, for which [raise_for_status] raises [HTTPError],
    the call reports the details through [st.error], returns the fixed
    network message and raises nothing; one request was sent. *)
Theorem network_failure_reported (w : world) (category answer : pystr)
        (e : py_exception) :
  blank answer = false ->
  (requests_post w (api_url w) headers (json_dumps (payload category answer))
   = Raised e
   /\ is_RequestException e = true)
  \/ (exists status_code http_error body,
        requests_post w (api_url w) headers (json_dumps (payload category answer))
        = Returned (requests_response status_code http_error body)
        /\ (400 <= status_code < 600)%Z
        /\ e = MkException RequestException http_error) ->
  generate_feedback w category answer
  = ([StSpinner (lit "Generating feedback with AI (Gemini)...");
      RequestsPost (api_url w) headers (json_dumps (payload category answer));
      StError (lit "Gemini API Request Error: " ++ exc_text e)],
     Returned (PyStr (lit "An error occurred while connecting to Gemini API. Please check your network or API key."))).
Proof.
  intros Hb Hfail.
  assert (H : exchange_raises w category answer = Some e
              /\ is_RequestException e = true).
  { unfold exchange_raises.
    destruct Hfail as [[Hpost He]|[status_code [http_error [body [Hpost [Hs ->]]]]]].
    - rewrite Hpost. now split.
    - rewrite Hpost. unfold requests_response, status_is_error.
      replace (400 <=? status_code)%Z with true by (symmetry; apply Z.leb_le; lia).
      replace (status_code <? 600)%Z with true by (symmetry; apply Z.ltb_lt; lia).
      simpl. now split. }
  destruct H as [Hr He].
  rewrite generate_feedback_nonblank by assumption.
  rewrite (exchange_raised _ _ _ Hr). unfold try_except, feedback_handler.
  rewrite He. reflexivity.
Qed.

(** C4, as amended. When the codec fails to decode the buffer, the call
    returns [None] with a message and raises nothing, and the emotion
    capability is not reached.  If [cv2.imdecode] returned [None] the message
    is exactly "Could not decode image. Please try another picture."; if it
    raised an [Exception], the exception is shown through [st.error] and the
    message is "An error occurred during emotion analysis: " with its text. *)
Theorem undecodable_image (buf : list byte) (failure : decode_failure) :
  failed_decoding buf = Some failure ->
  analyze_emotion_from_image (Some buf)
  = match failure with
    | NoImage =>
        ([Cv2Imdecode buf],
         Returned (PyNone,
                   PyStr (lit "Could not decode image. Please try another picture.")))
    | CodecError e =>
        ([Cv2Imdecode buf;
          StError (lit "Error analyzing image for emotions: " ++ exc_text e)],
         Returned (PyNone,
                   PyStr (lit "An error occurred during emotion analysis: "
                          ++ exc_text e)))
    end.
Proof.
  unfold failed_decoding, analyze_emotion_from_image, emotion_analysis, try_except,
    emotion_handler, emit, lift, bind, ret.
  destruct (cv2_imdecode buf) as [[pixels|]|e]; simpl; try discriminate.
  - intros [= <-]. reflexivity.
  - destruct (is_Exception e); [|discriminate]. intros [= <-]. reflexivity.
Qed.

(** C5. The instruction document sent is a function of the category and
    the answer alone: two calls with the same pair send the same request
    body, whatever the environment, the API key and the behaviour of the
    remote service in either call. *)
Theorem request_document_deterministic (w1 w2 : world) (category answer : pystr) :
  posted_data (events (generate_feedback w1 category answer))
  = posted_data (events (generate_feedback w2 category answer))
  /\ posted_data (events (generate_feedback w1 category answer))
     = if blank answer then [] else [json_dumps (payload category answer)].
Proof.
  rewrite !generate_feedback_posts. split; reflexivity.
Qed.

(** C6. The sentiment of the empty string is polarity 0.0 and subjectivity
    0.0, and so is the sentiment of every blank text; TextBlob is not
    consulted. *)
Theorem blank_sentiment_zero :
  analyze_sentiment []
  = PyDict [(lit "polarity", PyFloat 0%float); (lit "subjectivity", PyFloat 0%float)]
  /\ forall text, blank text = true ->
       analyze_sentiment text
       = PyDict [(lit "polarity", PyFloat 0%float); (lit "subjectivity", PyFloat 0%float)].
Proof.
  split; [reflexivity|].
  intros text Hb. unfold analyze_sentiment. rewrite not_strip_blank, Hb. reflexivity.
Qed.

(** C7. For every category (those of the selector among them) and every
    answer, the document carries the category and the answer verbatim, each
    after its label, and names the seven evaluation dimensions in order. *)
Theorem prompt_embeds (category answer : pystr) :
  infix (lit "Interview Category: " ++ category ++ [newline]) (prompt category answer)
  /\ infix (lit "User's Answer: " ++ [dquote] ++ answer ++ [dquote; newline])
           (prompt category answer)
  /\ List.length dimensions = 7
  /\ in_order dimensions (prompt category answer).
Proof.
  rewrite prompt_shape. repeat split.
  - exists (prompt_head ++ category ++ aspects ++ lit "    "),
      ((lit "    User's Answer: " ++ [dquote] ++ answer ++ [dquote; newline])
       ++ prompt_tail).
    rewrite <- !app_assoc. reflexivity.
  - exists (prompt_head ++ category ++ aspects
            ++ (lit "    Interview Category: " ++ category ++ [newline])
            ++ lit "    "), prompt_tail.
    rewrite <- !app_assoc. reflexivity.
  - apply in_order_app_l, in_order_app_l, in_order_app_r.
    exact aspects_dimensions.
Qed.

(** C8, as amended. The gate lets the script run on exactly when the
    variable is set and its value, upper-cased, is TRUE; for every other
    value, and when the variable is absent, it shows the warning and stops. *)
Theorem deployment_gate_upper (w : world) :
  (deployment_gate w = ([], Returned Running)
   /\ exists v, getenv w (lit "AI_INTERVIEW_COACH_AUTHORIZED_DEPLOYMENT") = Some v
                /\ upper upper_other v = lit "TRUE")
  \/ (deployment_gate w = ([StError unauthorized_message; StStop], Returned Stopped)
      /\ forall v, getenv w (lit "AI_INTERVIEW_COACH_AUTHORIZED_DEPLOYMENT") = Some v ->
                   upper upper_other v <> lit "TRUE").
Proof.
  unfold deployment_gate, AUTHORIZED_DEPLOYMENT_FLAG, getenv_default.
  destruct (getenv w (lit "AI_INTERVIEW_COACH_AUTHORIZED_DEPLOYMENT")) as [v|].
  - destruct (pystr_eqb (upper upper_other v) (lit "TRUE")) eqn:Hu; simpl.
    + left. split; [reflexivity|]. exists v. split; [reflexivity|].
      now apply pystr_eqb_eq.
    + right. split; [reflexivity|]. intros v' [= <-]. now apply pystr_eqb_neq.
  - right. split; [reflexivity | discriminate].
Qed.

(** C9. Without an image ([None]) the call returns [None] with exactly the
    message "No image provided."; it emits no event, so neither the decoder
    nor the emotion capability is invoked. *)
Theorem no_image_provided :
  analyze_emotion_from_image None
  = ([], Returned (PyNone, PyStr (lit "No image provided."))).
Proof. reflexivity. Qed.

(** C10, as amended. If every exception the library calls of the exchange
    raise is an [Exception], the call returns a value: an exception raised
    there is caught by the first clause matching it and turned into the
    fixed message of that clause, and so is an error raised while the
    response is read. *)
Theorem exceptions_converted (w : world) (category answer : pystr) :
  (forall e, exchange_raises w category answer = Some e -> is_Exception e = true) ->
  exists t v,
    generate_feedback w category answer = (t, Returned v)
    /\ (forall e, blank answer = false ->
                  exchange_raises w category answer = Some e ->
                  v = PyStr (handler_message e)).
Proof.
  intros Hexc. destruct (blank answer) eqn:Hb.
  - rewrite generate_feedback_blank by assumption.
    eexists. eexists. split; [reflexivity | discriminate].
  - rewrite generate_feedback_nonblank by assumption.
    destruct (exchange_raises_or_parsed w category answer) as [[e He]|[Hn [body Hp]]].
    + rewrite (exchange_raised _ _ _ He). unfold try_except.
      rewrite (feedback_handler_caught _ (Hexc e He)).
      eexists. eexists. split; [reflexivity|].
      intros e' _ He'. congruence.
    + rewrite (exchange_parsed _ _ _ Hp). pose proof (reading_cases body) as R.
      destruct (candidate_text body) as [t|], (schema_gap body); try contradiction.
      * rewrite R. eexists. eexists. split; [reflexivity|]. congruence.
      * rewrite R. eexists. eexists. split; [reflexivity|]. congruence.
      * destruct R as [e [He Hc]]. rewrite He. unfold try_except, events, result.
        simpl. rewrite (builtin_class_handled _ Hc).
        eexists. eexists. split; [reflexivity|]. congruence.
Qed.

(** The five categories of the selector are written into the document as
    they are. *)
Corollary selector_categories_embedded :
  Forall (fun category => forall answer,
            infix (lit "Interview Category: " ++ category ++ [newline])
                  (prompt category answer))
         categories.
Proof.
  apply Forall_forall. intros category _ answer. rewrite prompt_shape.
  exists (prompt_head ++ category ++ aspects ++ lit "    "),
    ((lit "    User's Answer: " ++ [dquote] ++ answer ++ [dquote; newline])
     ++ prompt_tail).
  rewrite <- !app_assoc. reflexivity.
Qed.

(** ** Further properties of the helper functions *)

(** The exception a library call of the [try] block of
    [analyze_emotion_from_image] raises, if one does. *)
Definition vision_raises (buf : list byte) : option py_exception :=
  match cv2_imdecode buf with
  | Raised e => Some e
  | Returned None => None
  | Returned (Some pixels) =>
      match DeepFace_analyze pixels with
      | Raised e => Some e
      | Returned _ => None
      end
  end.

(** [str.upper] on one ASCII code point. *)
Definition ascii_upper (c : codepoint) : codepoint :=
  if ((97 <=? c) && (c <=? 122))%N then (c - 32)%N else c.

Definition ascii_only (s : pystr) : bool := forallb (fun c => (c <? 128)%N) s.

(** [c] is the capital letter [u] or its small letter. *)
Definition same_letter (u c : codepoint) : bool := ((c =? u) || (c =? u + 32))%N.

(** TRUE in any mix of capital and small letters, and nothing around it. *)
Definition spells_TRUE (v : pystr) : bool :=
  match v with
  | [a; b; c; d] =>
      same_letter 84%N a && same_letter 82%N b && same_letter 85%N c
      && same_letter 69%N d
  | _ => false
  end.

Lemma generate_feedback_parsed (w : world) (category answer : pystr) (body : pyval) :
  blank answer = false ->
  parsed_body w category answer = Some body ->
  generate_feedback w category answer
  = try_except (exchange_opening w category answer ++ events (extract_feedback body),
                result (extract_feedback body))
               feedback_handler.
Proof.
  intros Hb Hp. rewrite generate_feedback_nonblank by assumption.
  now rewrite (exchange_parsed _ _ _ Hp).
Qed.

(** X1. With a parsed response, the call ends with the spinner and the
    request as its only events and returns [t] exactly when [t] is the value
    at candidates[0].content.parts[0].text of the response: the presence
    checks accept the responses that have the text and no others, later
    candidates and parts are not looked at, and a success is never
    accompanied by an [st.error]. *)
Theorem feedback_success_iff (w : world) (category answer : pystr) (body t : pyval) :
  blank answer = false ->
  parsed_body w category answer = Some body ->
  (generate_feedback w category answer
   = ([StSpinner (lit "Generating feedback with AI (Gemini)...");
       RequestsPost (api_url w) headers (json_dumps (payload category answer))],
      Returned t)
   <-> candidate_text body = Some t).
Proof.
  intros Hb Hp. rewrite (@generate_feedback_parsed w category answer body Hb Hp).
  pose proof (reading_cases body) as R.
  destruct (candidate_text body) as [t'|], (schema_gap body); try contradiction.
  - rewrite R. unfold try_except, events, result, exchange_opening. simpl.
    split; intros [= ->]; reflexivity.
  - rewrite R. unfold try_except, events, result, exchange_opening. simpl.
    split; discriminate.
  - destruct R as [e [He Hc]]. rewrite He.
    unfold try_except, events, result, exchange_opening. simpl.
    rewrite (builtin_class_handled _ Hc). simpl. split; discriminate.
Qed.

(** X2. When the body of the response does not parse ([response.json()]
    raises a JSON decode error), the call reports it through [st.error] and
    returns a fixed message.  The clauses are tried in order: the decode
    error of [requests], which is a [RequestException] too, is answered by
    the first clause with the network message; [json.JSONDecodeError] by the
    second with the processing message. *)
Theorem unparseable_body_reported (w : world) (category answer : pystr)
        (resp : response) (e : py_exception) :
  blank answer = false ->
  requests_post w (api_url w) headers (json_dumps (payload category answer))
  = Returned resp ->
  raise_for_status resp = None ->
  json resp = Raised e ->
  is_JSONDecodeError e = true ->
  generate_feedback w category answer
  = ([StSpinner (lit "Generating feedback with AI (Gemini)...");
      RequestsPost (api_url w) headers (json_dumps (payload category answer));
      StError ((if is_RequestException e
                then lit "Gemini API Request Error: "
                else lit "Failed to decode JSON response from Gemini API: ")
               ++ exc_text e)],
     Returned (PyStr (if is_RequestException e
                      then lit "An error occurred while connecting to Gemini API. Please check your network or API key."
                      else lit "An error occurred while processing Gemini feedback. Please try again."))).
Proof.
  intros Hb Hpost Hst Hjson Hcls.
  assert (Hr : exchange_raises w category answer = Some e).
  { unfold exchange_raises. now rewrite Hpost, Hst, Hjson. }
  rewrite generate_feedback_nonblank by assumption.
  rewrite (exchange_raised _ _ _ Hr). unfold try_except, feedback_handler.
  destruct (is_RequestException e); [reflexivity|].
  rewrite Hcls. reflexivity.
Qed.

(** Whatever the text, the dictionary [analyze_sentiment] returns has
    the keys the caller subscripts (lines 207-208): both lookups succeed, and
    give TextBlob's polarity and subjectivity unchanged for a text that is
    not blank, 0.0 for a blank one. *)
Theorem sentiment_readouts (text : pystr) :
  getitem error_text (analyze_sentiment text) (lit "polarity")
  = Returned (PyFloat (if blank text then 0%float else polarity (TextBlob text)))
  /\ getitem error_text (analyze_sentiment text) (lit "subjectivity")
     = Returned (PyFloat (if blank text then 0%float else subjectivity (TextBlob text))).
Proof.
  unfold analyze_sentiment. rewrite not_strip_blank.
  destruct (blank text); split; reflexivity.
Qed.

(** X4. When the image decodes and DeepFace reports regions, the first of
    which has a dominant emotion and scores, the call returns those two, of
    the first region only, after one decoding and one analysis and without
    an error message. *)
Theorem first_face_reported (buf : list byte) (pixels : image)
        (region : list (pystr * pyval)) (others : list pyval)
        (dominant scores : pyval) :
  cv2_imdecode buf = Returned (Some pixels) ->
  DeepFace_analyze pixels = Returned (PyList (PyDict region :: others)) ->
  lookup (lit "dominant_emotion") region = Some dominant ->
  lookup (lit "emotion") region = Some scores ->
  analyze_emotion_from_image (Some buf)
  = ([Cv2Imdecode buf; StSpinner (lit "Analyzing facial emotions..."); DeepFaceAnalyze],
     Returned (dominant, scores)).
Proof.
  intros Hd Ha Hdom Hsc.
  unfold analyze_emotion_from_image, emotion_analysis, try_except,
    emit, lift, bind, ret, getitem0, getitem, obind.
  rewrite Hd. simpl. rewrite Ha. simpl. rewrite Hdom, Hsc. reflexivity.
Qed.

(** X5. When the image decodes and DeepFace reports nothing (an empty
    list, or any value Python counts as false), the call returns [None] with
    the message "No face detected in the image." and no error is shown. *)
Theorem no_face_detected (buf : list byte) (pixels : image) (demographies : pyval) :
  cv2_imdecode buf = Returned (Some pixels) ->
  DeepFace_analyze pixels = Returned demographies ->
  truthy demographies = false ->
  analyze_emotion_from_image (Some buf)
  = ([Cv2Imdecode buf; StSpinner (lit "Analyzing facial emotions..."); DeepFaceAnalyze],
     Returned (PyNone, PyStr (lit "No face detected in the image."))).
Proof.
  intros Hd Ha Ht.
  unfold analyze_emotion_from_image, emotion_analysis, try_except,
    emit, lift, bind, ret.
  rewrite Hd. simpl. rewrite Ha. simpl. rewrite Ht. reflexivity.
Qed.

Lemma getitem0_error_class (v : pyval) (e : py_exception) :
  getitem0 error_text v = Raised e -> is_Exception e = true.
Proof.
  destruct v as [| | | |[|c s]|[|x l]|d]; simpl; intros [= <-]; reflexivity.
Qed.

Lemma getitem_error_class (v : pyval) (k : pystr) (e : py_exception) :
  getitem error_text v k = Raised e -> is_Exception e = true.
Proof.
  destruct v as [| | | | | |d]; simpl; try (intros [= <-]; reflexivity).
  destruct (lookup k d); [discriminate | intros [= <-]; reflexivity].
Qed.

Lemma region_error_class (v : pyval) (k : pystr) (e : py_exception) :
  (d0 <- getitem0 error_text v ;; getitem error_text d0 k)%out = Raised e ->
  is_Exception e = true.
Proof.
  unfold obind. destruct (getitem0 error_text v) as [d0|e'] eqn:H0.
  - apply getitem_error_class.
  - intros [= <-]. now apply getitem0_error_class in H0.
Qed.

Lemma emotion_handler_caught (e : py_exception) :
  is_Exception e = true ->
  emotion_handler e
  = Some ([StError (lit "Error analyzing image for emotions: " ++ exc_text e)],
          Returned (PyNone,
                    PyStr (lit "An error occurred during emotion analysis: "
                           ++ exc_text e))).
Proof. intros He. unfold emotion_handler. rewrite He. reflexivity. Qed.

(** X6. If the exceptions the codec and DeepFace raise are [Exception]s,
    [analyze_emotion_from_image] returns a pair for every input: those
    exceptions, and the errors raised while the report of DeepFace is read
    (no first region, a key that is missing), are all turned into a
    message. *)
Theorem emotion_analysis_returns (image_bytes : option (list byte)) :
  (forall buf e, image_bytes = Some buf -> vision_raises buf = Some e ->
                 is_Exception e = true) ->
  exists t dominant detail,
    analyze_emotion_from_image image_bytes = (t, Returned (dominant, detail)).
Proof.
  intros Hexc. destruct image_bytes as [buf|].
  2:{ eexists. eexists. eexists. reflexivity. }
  specialize (Hexc buf). unfold vision_raises in Hexc.
  unfold analyze_emotion_from_image, emotion_analysis, emit, lift, bind, ret.
  destruct (cv2_imdecode buf) as [[pixels|]|e]; simpl.
  - destruct (DeepFace_analyze pixels) as [demographies|e]; simpl.
    + destruct (truthy demographies); simpl.
      * destruct (d0 <- getitem0 error_text demographies ;;
                  getitem error_text d0 (lit "dominant_emotion"))%out
          as [dom|e] eqn:Hdom; simpl.
        -- destruct (d0 <- getitem0 error_text demographies ;;
                     getitem error_text d0 (lit "emotion"))%out
             as [sc|e] eqn:Hsc; simpl.
           ++ eexists. eexists. eexists. reflexivity.
           ++ rewrite (emotion_handler_caught _ (region_error_class _ _ Hsc)).
              eexists. eexists. eexists. reflexivity.
        -- rewrite (emotion_handler_caught _ (region_error_class _ _ Hdom)).
           eexists. eexists. eexists. reflexivity.
      * eexists. eexists. eexists. reflexivity.
    + rewrite (emotion_handler_caught _ (Hexc e eq_refl eq_refl)).
      eexists. eexists. eexists. reflexivity.
  - eexists. eexists. eexists. reflexivity.
  - rewrite (emotion_handler_caught _ (Hexc e eq_refl eq_refl)).
    eexists. eexists. eexists. reflexivity.
Qed.

(** X7. When the codec or DeepFace raises an [Exception], the call shows
    it through [st.error] and returns [None] with a message that carries the
    text of the exception. *)
Theorem emotion_error_reported (buf : list byte) (e : py_exception) :
  vision_raises buf = Some e ->
  is_Exception e = true ->
  exists t,
    analyze_emotion_from_image (Some buf)
    = (t ++ [StError (lit "Error analyzing image for emotions: " ++ exc_text e)],
       Returned (PyNone,
                 PyStr (lit "An error occurred during emotion analysis: " ++ exc_text e)))
    /\ (t = [Cv2Imdecode buf]
        \/ t = [Cv2Imdecode buf; StSpinner (lit "Analyzing facial emotions...");
                DeepFaceAnalyze]).
Proof.
  unfold vision_raises. intros Hr He.
  unfold analyze_emotion_from_image, emotion_analysis, emit, lift, bind, ret.
  destruct (cv2_imdecode buf) as [[pixels|]|e']; simpl; try discriminate.
  - destruct (DeepFace_analyze pixels) as [d|e']; simpl; [discriminate|].
    injection Hr as ->. rewrite (emotion_handler_caught _ He).
    exists [Cv2Imdecode buf; StSpinner (lit "Analyzing facial emotions...");
            DeepFaceAnalyze].
    split; [reflexivity | right; reflexivity].
  - injection Hr as ->. rewrite (emotion_handler_caught _ He).
    exists [Cv2Imdecode buf]. split; [reflexivity | left; reflexivity].
Qed.

(** X8. DeepFace is invoked only on an image the codec has decoded: a run
    in which it is called was given a buffer, and the codec returned an
    image for it. *)
Theorem analysis_needs_decoded_image (image_bytes : option (list byte)) :
  In DeepFaceAnalyze (events (analyze_emotion_from_image image_bytes)) ->
  exists buf pixels,
    image_bytes = Some buf /\ cv2_imdecode buf = Returned (Some pixels).
Proof.
  destruct image_bytes as [buf|]; [|intros []].
  unfold analyze_emotion_from_image, emotion_analysis, emit, lift, bind, ret.
  destruct (cv2_imdecode buf) as [[pixels|]|e] eqn:Hd; simpl.
  - intros _. now exists buf, pixels.
  - intros [H|[]]. discriminate.
  - unfold emotion_handler. destruct (is_Exception e); simpl.
    + intros [H|[H|[]]]; discriminate.
    + intros [H|[]]. discriminate.
Qed.

Lemma upper_ascii_only (v : pystr) :
  ascii_only v = true -> upper upper_other v = map ascii_upper v.
Proof.
  unfold upper, ascii_only. induction v as [|c v IH]; simpl; [reflexivity|].
  intros H. apply andb_prop in H. destruct H as [Hc Hv].
  rewrite (IH Hv). unfold upper_char, ascii_upper.
  destruct ((97 <=? c) && (c <=? 122))%N; [reflexivity|].
  rewrite Hc. reflexivity.
Qed.

Lemma ascii_upper_letter (u c : codepoint) :
  (65 <= u <= 90)%N -> ascii_upper c = u <-> same_letter u c = true.
Proof.
  intros Hu. unfold ascii_upper, same_letter.
  rewrite orb_true_iff, !N.eqb_eq.
  destruct (97 <=? c)%N eqn:H1; destruct (c <=? 122)%N eqn:H2; simpl;
    try apply N.leb_le in H1; try apply N.leb_le in H2;
    try apply N.leb_gt in H1; try apply N.leb_gt in H2; lia.
Qed.

(** X9. For a value of the variable made of ASCII characters, the gate
    lets the script run on exactly when the value spells TRUE in capital or
    small letters, with nothing before or after it: the comparison ignores
    case and nothing else (no whitespace is stripped). *)
Theorem gate_ignores_case_only (w : world) (v : pystr) :
  getenv w (lit "AI_INTERVIEW_COACH_AUTHORIZED_DEPLOYMENT") = Some v ->
  ascii_only v = true ->
  (deployment_gate w = ([], Returned Running) <-> spells_TRUE v = true).
Proof using upper_other.
  intros Hv Ha.
  assert (Hgate : deployment_gate w = ([], Returned Running)
                  <-> map ascii_upper v = [84; 82; 85; 69]%N).
  { unfold deployment_gate, AUTHORIZED_DEPLOYMENT_FLAG, getenv_default.
    rewrite Hv, (upper_ascii_only _ Ha).
    change (lit "TRUE") with [84; 82; 85; 69]%N.
    destruct (pystr_eqb (map ascii_upper v) [84; 82; 85; 69]%N) eqn:He; simpl.
    - apply pystr_eqb_eq in He. split; [intros _; exact He | reflexivity].
    - apply pystr_eqb_neq in He. split; [discriminate | intros H; contradiction]. }
  rewrite Hgate. unfold spells_TRUE.
  destruct v as [|a [|b [|c [|d [|x v]]]]]; simpl; try (split; discriminate).
  rewrite !andb_true_iff.
  rewrite <- (@ascii_upper_letter 84%N a), <- (@ascii_upper_letter 82%N b),
    <- (@ascii_upper_letter 85%N c), <- (@ascii_upper_letter 69%N d) by lia.
  split.
  - intros [= -> -> -> ->]. repeat split.
  - intros [[[-> ->] ->] ->]. reflexivity.
Qed.

End App.

(** C1 on a whitespace-only answer. *)
Lemma blank_answer_rejected_witness :
  result (generate_feedback Sample.error_text Sample.format_value Sample.json_dumps
                            Sample.offline Sample.category Sample.whitespace)
  = Returned (PyStr (lit "Please provide an answer to receive feedback."))
  /\ events (generate_feedback Sample.error_text Sample.format_value Sample.json_dumps
                               Sample.offline Sample.category Sample.whitespace)
     = [].
Proof.
  apply (blank_answer_rejected Sample.error_text Sample.format_value
           Sample.json_dumps Sample.offline Sample.category Sample.whitespace).
  reflexivity.
Defined.

(** C2, against the claim as stated: two responses that parse and have no
    candidate text, an empty array and a first part without [text], are not
    answered with the parsing message and the raw payload but with the
    message for unexpected errors. *)
Lemma text_missing_not_schema_error :
  parsed_body Sample.json_dumps (Sample.answering Sample.empty_array)
              Sample.category Sample.answer = Some Sample.empty_array
  /\ candidate_text Sample.empty_array = None
  /\ generate_feedback Sample.error_text Sample.format_value Sample.json_dumps
                      (Sample.answering Sample.empty_array) Sample.category Sample.answer
     = (exchange_opening Sample.json_dumps (Sample.answering Sample.empty_array)
                         Sample.category Sample.answer
        ++ [StError (lit "An unexpected error occurred: built-in error")],
        Returned (PyStr (lit "An unexpected error occurred. Please try again.")))
  /\ parsed_body Sample.json_dumps (Sample.answering Sample.part_without_text)
                 Sample.category Sample.answer = Some Sample.part_without_text
  /\ candidate_text Sample.part_without_text = None
  /\ generate_feedback Sample.error_text Sample.format_value Sample.json_dumps
                      (Sample.answering Sample.part_without_text) Sample.category Sample.answer
     = (exchange_opening Sample.json_dumps (Sample.answering Sample.part_without_text)
                         Sample.category Sample.answer
        ++ [StError (lit "An unexpected error occurred: built-in error")],
        Returned (PyStr (lit "An unexpected error occurred. Please try again.")))
  /\ pystr_eqb (lit "An unexpected error occurred. Please try again.")
               (lit "An error occurred while parsing Gemini feedback. Please try again.")
     = false.
Proof. repeat split; vm_compute; reflexivity. Qed.

(** C6 on a whitespace-only text, with a TextBlob that would say 0.5. *)
Lemma blank_sentiment_zero_witness :
  analyze_sentiment Sample.TextBlob Sample.whitespace
  = PyDict [(lit "polarity", PyFloat 0%float); (lit "subjectivity", PyFloat 0%float)].
Proof.
  apply (proj2 (blank_sentiment_zero Sample.TextBlob) Sample.whitespace).
  reflexivity.
Defined.

(** C8, against the claim as stated: the gate admits two different values
    of the variable, TRUE and true. *)
Lemma gate_admits_lowercase :
  deployment_gate Sample.upper_other
                  (MkWorld (Sample.set_to (lit "TRUE")) (requests_post Sample.offline))
  = ([], Returned Running)
  /\ deployment_gate Sample.upper_other
                     (MkWorld (Sample.set_to (lit "true")) (requests_post Sample.offline))
     = ([], Returned Running)
  /\ pystr_eqb (lit "true") (lit "TRUE") = false.
Proof. repeat split; vm_compute; reflexivity. Qed.

(** C10, against the claim as stated: an interrupt raised while the request
    is under way is no [Exception]; it leaves the call as it is. *)
Lemma interrupt_propagates :
  generate_feedback Sample.error_text Sample.format_value Sample.json_dumps
                    Sample.interrupted Sample.category Sample.answer
  = (exchange_opening Sample.json_dumps Sample.interrupted Sample.category Sample.answer,
     Raised (MkException NonException [])).
Proof. vm_compute. reflexivity. Qed.

(** C10 as amended, on a connection that is refused. *)
Lemma exceptions_converted_witness :
  exists t v,
    generate_feedback Sample.error_text Sample.format_value Sample.json_dumps
                      Sample.offline Sample.category Sample.answer
    = (t, Returned v)
    /\ (forall e, blank Sample.answer = false ->
                  exchange_raises Sample.json_dumps Sample.offline
                                  Sample.category Sample.answer = Some e ->
                  v = PyStr (handler_message e)).
Proof.
  apply (exceptions_converted Sample.error_text Sample.format_value
           Sample.json_dumps Sample.offline Sample.category Sample.answer).
  intros e He. injection He as <-. reflexivity.
Defined.

(** * The page: the script of [app.py] around the helper functions

    The module-level statements of lines 17-41 and 164-275, in the order the
    script runs them.  An event of the page is a call of a Streamlit or
    matplotlib function, or an event of a helper function it calls. *)

Module Page.

Inductive widget : Type :=
| Helper (ev : event)                          (* inside a helper function *)
| StWarning (body : pyval)                     (* st.warning(body) *)
| StSetPageConfig (page_title layout : pystr)  (* st.set_page_config(...) *)
| StTitle (body : pystr)                       (* st.title(body) *)
| StMarkdown (body : pyval)                    (* st.markdown(body) *)
| StHeader (body : pystr)                      (* st.header(body) *)
| StSubheader (body : pystr)                   (* st.subheader(body) *)
| StSelectbox (label : pystr) (options : list pystr) (index : Z)
| StTextArea (label : pystr) (height : Z) (placeholder : pystr)
| StButton (label type : pystr)                (* st.button(label, type=) *)
| StWrite (body : pystr)                       (* st.write(body) *)
| PltSubplots (nrows ncols : Z) (figsize : Z * Z)
| AxBar (axis : Z) (x : list pystr) (height : list pyval) (color : list pystr)
| AxSetYlim (axis : Z) (limits : Z * Z)
| AxSetTitle (axis : Z) (title : pystr)
| AxAxhline (axis : Z) (y : Z) (color : pystr) (linewidth : float)
| AxText (axis : Z) (x : Z) (y : pyval) (s : pystr) (ha va : pystr)
| PltTightLayout                               (* plt.tight_layout() *)
| StPyplot                                     (* st.pyplot(fig) *)
| PltClose                                     (* plt.close(fig) *)
| StCameraInput (label : pystr)                (* st.camera_input(label) *)
| StSuccess (body : pystr)                     (* st.success(body) *)
| StJson (body : pyval)                        (* st.json(body) *)
| SidebarHeader (body : pystr)                 (* st.sidebar.header(body) *)
| SidebarInfo (body : pystr)                   (* st.sidebar.info(body) *)
| SidebarMarkdown (body : pystr)               (* st.sidebar.markdown(body) *)
| SidebarWarning (body : pystr).               (* st.sidebar.warning(body) *)

(** What the widgets hand to the script in one run of it. *)
Record page_inputs : Type := MkInputs {
  question_category : pystr;          (* st.selectbox(...) *)
  user_answer : pystr;                (* st.text_area(...) *)
  button_clicked : bool;              (* st.button("Get Feedback", ...) *)
  camera_image : option (list byte)   (* st.camera_input(...), its getvalue() *)
}.

Definition page_run (A : Type) : Type := (list widget * outcome A)%type.

Definition pret {A} (a : A) : page_run A := ([], Returned a).

Definition pbind {A B} (m : page_run A) (f : A -> page_run B) : page_run B :=
  match m with
  | (t, Returned a) => let (t', r) := f a in (t ++ t', r)
  | (t, Raised e) => (t, Raised e)
  end.

Definition draw (x : widget) : page_run unit := ([x], Returned tt).

(** A call of a helper function: its events are events of the page. *)
Definition call {A} (r : run A) : page_run A := (map Helper (fst r), snd r).

Definition eval {A} (o : outcome A) : page_run A := ([], o).

(** The events of the helper functions among the events of the page. *)
Fixpoint helper_events (t : list widget) : list event :=
  match t with
  | [] => []
  | Helper ev :: rest => ev :: helper_events rest
  | _ :: rest => helper_events rest
  end.

(** The buffers handed to the image codec. *)
Fixpoint decoded_buffers (t : list event) : list (list byte) :=
  match t with
  | [] => []
  | Cv2Imdecode buf :: rest => buf :: decoded_buffers rest
  | _ :: rest => decoded_buffers rest
  end.

End Page.
Export Page.

Declare Scope page_scope.
Delimit Scope page_scope with page.
Notation "x <- m ;; k" := (pbind m (fun x => k))
  (at level 61, m at next level, right associativity) : page_scope.
Notation "m ;;; k" := (pbind m (fun _ => k))
  (at level 61, right associativity) : page_scope.

Section Script.

Variable upper_other : codepoint -> pystr.        (* str.upper outside ASCII *)
Variable error_text : exc_class -> pyval -> pystr. (* text of a built-in error *)
Variable format_value : pyval -> pystr.           (* f"{v}" *)
Variable json_dumps : pyval -> pystr.             (* json.dumps(v) *)
Variable TextBlob : pystr -> sentiment.           (* TextBlob(text).sentiment *)
Variable image : Type.                            (* a decoded pixel grid *)
Variable cv2_imdecode : list byte -> outcome (option image).
Variable DeepFace_analyze : image -> outcome pyval.
Variable format_2f : pyval -> pystr.              (* f"{v:.2f}" *)
Variable str_capitalize : pystr -> pystr.         (* str.capitalize *)

Local Open Scope page_scope.

(** [v >= 0] *)
Definition ge_zero (v : pyval) : outcome bool :=
  match v with
  | PyFloat f => Returned (PrimFloat.leb 0%float f)
  | PyInt z => Returned (0 <=? z)%Z
  | PyBool _ => Returned true
  | _ => Raised (MkException TypeError (error_text TypeError v))
  end.

(** [v.capitalize()] *)
Definition capitalize (v : pyval) : outcome pystr :=
  match v with
  | PyStr s => Returned (str_capitalize s)
  | _ => Raised (MkException AttributeError (error_text AttributeError v))
  end.

(** *** API key (lines 33-41)

    [os.getenv] with a default raises no [KeyError]: the [except] clause of
    lines 39-41 is never entered. *)

Definition key_warning : pystr :=
  lit "GEMINI_API_KEY environment variable not set. If running locally, please set it. Assuming Canvas will inject it for deployment.".

Definition api_key_setup (w : world) : page_run unit :=
  if negb (truthy (PyStr (gemini_api_key w))) then
    draw (StWarning (PyStr key_warning))
  else pret tt.

(** *** The form (lines 164-194) *)

Definition welcome_text : pystr :=
  [newline]
  ++ line "Welcome to your personal AI Interview Coach! Practice your interview skills,"
  ++ line "get instant feedback on your answers, and improve your confidence.".

Definition answer_help_text : pystr :=
  [newline]
  ++ line "Type or paste your answer to an interview question below."
  ++ line "*(Voice recording integration (e.g., Whisper API) is a planned future enhancement.)*".

Definition draw_form (i : page_inputs) : page_run unit :=
  draw (StSetPageConfig (lit "AI Interview Coach") (lit "wide")) ;;;
  draw (StTitle ([127891%N] ++ lit " AI Interview Coach")) ;;;
  draw (StMarkdown (PyStr welcome_text)) ;;;
  draw (StHeader (lit "1. Select Interview Category")) ;;;
  draw (StSelectbox (lit "Choose a category for your practice question:")
                    [lit "HR (Human Resources)"; lit "Technical (Software Engineering)";
                     lit "Behavioral (STAR Method)"; lit "Product Management";
                     lit "Data Science"]
                    0) ;;;
  draw (StHeader (lit "2. Your Answer")) ;;;
  draw (StMarkdown (PyStr answer_help_text)) ;;;
  draw (StTextArea (lit "Enter your answer here:") 250
                   (lit "e.g., 'Tell me about yourself.' (for "
                    ++ question_category i ++ lit " category)")) ;;;
  draw (StButton (lit "Get Feedback") (lit "primary")).

(** *** The report (lines 198-249) *)

Definition camera_help_text : pystr :=
  [newline]
  ++ line "        Take a picture using your webcam to get an analysis of your facial emotions."
  ++ line "        This feature processes a single image, not real-time video, which is more"
  ++ line "        suitable for web deployment like Streamlit Cloud."
  ++ lit "        ".

(** Lines 206-228: the two readouts and the chart. *)
Definition sentiment_section (i : page_inputs) : page_run unit :=
  draw (StSubheader ([128522%N] ++ lit " Sentiment Analysis")) ;;;
  let sentiment_results := analyze_sentiment TextBlob (user_answer i) in
  polarity <- eval (getitem error_text sentiment_results (lit "polarity")) ;;
  subjectivity <- eval (getitem error_text sentiment_results (lit "subjectivity")) ;;
  draw (StWrite (lit "**Polarity (Emotion):** " ++ format_2f polarity
                 ++ lit " (closer to 1.0 is positive, -1.0 is negative)")) ;;;
  draw (StWrite (lit "**Subjectivity (Opinion):** " ++ format_2f subjectivity
                 ++ lit " (closer to 1.0 is opinion, 0.0 is factual)")) ;;;
  draw (PltSubplots 1 2 (10, 4)%Z) ;;;
  positive <- eval (ge_zero polarity) ;;
  draw (AxBar 0 [lit "Polarity"] [polarity]
              [if positive : bool then lit "skyblue" else lit "salmon"]) ;;;
  draw (AxSetYlim 0 (-1, 1)%Z) ;;;
  draw (AxSetTitle 0 (lit "Sentiment Polarity")) ;;;
  draw (AxAxhline 0 0 (lit "grey") 0.8%float) ;;;
  above <- eval (ge_zero polarity) ;;
  draw (AxText 0 0 polarity (format_2f polarity) (lit "center")
               (if above : bool then lit "bottom" else lit "top")) ;;;
  draw (AxBar 1 [lit "Subjectivity"] [subjectivity] [lit "lightgreen"]) ;;;
  draw (AxSetYlim 1 (0, 1)%Z) ;;;
  draw (AxSetTitle 1 (lit "Sentiment Subjectivity")) ;;;
  draw (AxText 1 0 subjectivity (format_2f subjectivity) (lit "center") (lit "bottom")) ;;;
  draw PltTightLayout ;;;
  draw StPyplot ;;;
  draw PltClose.

(** Lines 241-249: the snapshot, when there is one. *)
Definition emotion_section (i : page_inputs) : page_run unit :=
  draw (StSubheader ([128065%N] ++ [65039%N] ++ lit " Facial Emotion Detection")) ;;;
  draw (StMarkdown (PyStr camera_help_text)) ;;;
  draw (StCameraInput (lit "Smile for the camera!")) ;;;
  match camera_image i with
  | Some bytes =>
      found <- call (analyze_emotion_from_image error_text cv2_imdecode
                       DeepFace_analyze (Some bytes)) ;;
      let (dominant_emotion, emotion_data) := found : pyval * pyval in
      if truthy dominant_emotion then
        name <- eval (capitalize dominant_emotion) ;;
        draw (StSuccess (lit "**Dominant Emotion Detected: " ++ name ++ lit "**")) ;;;
        draw (StWrite (lit "Emotion Probabilities:")) ;;;
        draw (StJson emotion_data)
      else draw (StWarning emotion_data)
  | None => pret tt
  end.

Definition feedback_report (w : world) (i : page_inputs) : page_run unit :=
  draw (StHeader (lit "3. Feedback Report")) ;;;
  ai_feedback <- call (generate_feedback error_text format_value json_dumps w
                         (question_category i) (user_answer i)) ;;
  draw (StSubheader ([129302%N] ++ lit " AI-Powered Feedback")) ;;;
  draw (StMarkdown ai_feedback) ;;;
  draw (StMarkdown (PyStr (lit "---"))) ;;;
  sentiment_section i ;;;
  draw (StMarkdown (PyStr (lit "---"))) ;;;
  emotion_section i.

(** Lines 194-249: what the button starts. *)
Definition on_submit (w : world) (i : page_inputs) : page_run unit :=
  if button_clicked i then
    if negb (truthy (PyStr (strip (user_answer i)))) then
      draw (StWarning (PyStr (lit "Please enter your answer before getting feedback.")))
    else feedback_report w i
  else pret tt.

(** *** The sidebar (lines 252-275) *)

Definition about_text : pystr :=
  [newline]
  ++ line "This AI Interview Coach helps you prepare for interviews by providing automated feedback."
  ++ line "It leverages:"
  ++ line "- **Google Gemini API:** For comprehensive textual feedback."
  ++ line "- **TextBlob:** For sentiment analysis of your answer."
  ++ line "- **DeepFace & OpenCV:** For single-image facial emotion detection from your webcam."
  ++ [newline]
  ++ line "Developed by a professional AI developer and Python engineer.".

Definition how_to_text : pystr :=
  [newline]
  ++ line "1.  **Select a category** for the interview question."
  ++ line "2.  **Type your answer** in the text area."
  ++ lit "3.  Click **"
  ++ [dquote]
  ++ lit "Get Feedback"
  ++ [dquote]
  ++ line "** to receive an AI-generated report, including sentiment analysis."
  ++ lit "4.  Optionally, **take a picture** with your webcam in the "
  ++ [dquote]
  ++ lit "Facial Emotion Detection"
  ++ [dquote]
  ++ line " section to analyze your emotions.".

Definition disclaimer_text : pystr :=
  [newline]
  ++ line "This tool provides AI-generated feedback and is intended for practice purposes only."
  ++ line "It should not be considered a substitute for professional career advice.".

Definition draw_sidebar : page_run unit :=
  draw (SidebarHeader (lit "About This App")) ;;;
  draw (SidebarInfo about_text) ;;;
  draw (SidebarHeader (lit "How to Use")) ;;;
  draw (SidebarMarkdown how_to_text) ;;;
  draw (SidebarHeader (lit "Disclaimer")) ;;;
  draw (SidebarWarning disclaimer_text).

(** *** The script *)

Definition script (w : world) (i : page_inputs) : page_run unit :=
  state <- call (deployment_gate upper_other w) ;;
  match state with
  | Stopped => pret tt
  | Running =>
      api_key_setup w ;;;
      draw_form i ;;;
      on_submit w i ;;;
      draw_sidebar
  end.
(** Whether the gate lets the script run on, and whether the call of
    [generate_feedback] returns. *)
Definition admitted (w : world) : bool :=
  pystr_eqb (AUTHORIZED_DEPLOYMENT_FLAG upper_other w) (lit "TRUE").

Definition feedback_call (w : world) (i : page_inputs) : run pyval :=
  generate_feedback error_text format_value json_dumps w
                    (question_category i) (user_answer i).

Definition returns {A} (r : run A) : bool :=
  match result r with
  | Returned _ => true
  | Raised _ => false
  end.

(** The events of the helper functions a run of the script is expected to
    contain. *)
Definition expected_helper_events (w : world) (i : page_inputs) : list event :=
  if admitted w then
    if button_clicked i && negb (blank (user_answer i)) then
      events (feedback_call w i)
      ++ (if returns (feedback_call w i) then
            match camera_image i with
            | Some bytes =>
                events (analyze_emotion_from_image error_text cv2_imdecode
                          DeepFace_analyze (Some bytes))
            | None => []
            end
          else [])
    else []
  else [StError unauthorized_message; StStop].

(** ** The page: lemmas *)

Opaque lit.

Lemma helper_events_app (t u : list widget) :
  helper_events (t ++ u) = helper_events t ++ helper_events u.
Proof.
  induction t as [|x t IH]; simpl; [reflexivity|].
  destruct x; simpl; rewrite IH; reflexivity.
Qed.

Lemma helper_events_map (t : list event) : helper_events (map Helper t) = t.
Proof. induction t as [|ev t IH]; simpl; [reflexivity | now rewrite IH]. Qed.

Lemma pbind_returned {A B} (t : list widget) (a : A) (f : A -> page_run B) :
  pbind (t, Returned a) f = (t ++ fst (f a), snd (f a)).
Proof. unfold pbind. destruct (f a). reflexivity. Qed.

(** A part of the page that draws, calls no helper and ends normally. *)
Definition draws_only (m : page_run unit) : Prop :=
  exists t, m = (t, Returned tt) /\ helper_events t = [].

Lemma api_key_setup_draws (w : world) : draws_only (api_key_setup w).
Proof.
  unfold draws_only, api_key_setup.
  destruct (negb (truthy (PyStr (gemini_api_key w)))); eexists; split; reflexivity.
Qed.

Lemma draw_form_draws (i : page_inputs) : draws_only (draw_form i).
Proof. eexists. split; reflexivity. Qed.

Lemma draw_sidebar_draws : draws_only draw_sidebar.
Proof. eexists. split; reflexivity. Qed.

Lemma sentiment_section_draws (i : page_inputs) :
  exists t,
    sentiment_section i
    = (StSubheader ([128522%N] ++ lit " Sentiment Analysis")
       :: StWrite (lit "**Polarity (Emotion):** "
                   ++ format_2f (PyFloat (if blank (user_answer i) then 0%float
                                          else polarity (TextBlob (user_answer i))))
                   ++ lit " (closer to 1.0 is positive, -1.0 is negative)")
       :: StWrite (lit "**Subjectivity (Opinion):** "
                   ++ format_2f (PyFloat (if blank (user_answer i) then 0%float
                                          else subjectivity (TextBlob (user_answer i))))
                   ++ lit " (closer to 1.0 is opinion, 0.0 is factual)")
       :: t,
       Returned tt)
    /\ helper_events t = [].
Proof.
  unfold sentiment_section.
  destruct (sentiment_readouts error_text TextBlob (user_answer i)) as [Hp Hs].
  rewrite Hp, Hs. eexists. split; reflexivity.
Qed.

Lemma emotion_section_helpers (i : page_inputs) :
  helper_events (fst (emotion_section i))
  = match camera_image i with
    | Some bytes =>
        events (analyze_emotion_from_image error_text cv2_imdecode
                  DeepFace_analyze (Some bytes))
    | None => []
    end.
Proof.
  unfold emotion_section. destruct (camera_image i) as [bytes|]; [|reflexivity].
  destruct (analyze_emotion_from_image error_text cv2_imdecode DeepFace_analyze
              (Some bytes)) as [t [[dominant detail]|e]];
    unfold events, call, draw, eval; simpl.
  - destruct (truthy dominant).
    + destruct (capitalize dominant) as [name|e]; simpl;
        rewrite helper_events_app, helper_events_map; simpl; apply app_nil_r.
    + simpl. rewrite helper_events_app, helper_events_map. simpl. apply app_nil_r.
  - now rewrite helper_events_map.
Qed.

Lemma feedback_report_helpers (w : world) (i : page_inputs) :
  helper_events (fst (feedback_report w i))
  = events (feedback_call w i)
    ++ (if returns (feedback_call w i)
        then helper_events (fst (emotion_section i)) else []).
Proof.
  unfold feedback_report, returns, feedback_call, events, result.
  destruct (generate_feedback error_text format_value json_dumps w
              (question_category i) (user_answer i)) as [t [v|e]];
    unfold call, draw; simpl.
  2:{ rewrite helper_events_map. now rewrite app_nil_r. }
  destruct (sentiment_section_draws i) as [ts [Hs Hq]]. rewrite Hs.
  destruct (emotion_section i) as [te re]. simpl.
  rewrite helper_events_app, helper_events_map. simpl.
  rewrite helper_events_app, Hq. reflexivity.
Qed.

Lemma on_submit_helpers (w : world) (i : page_inputs) :
  helper_events (fst (on_submit w i))
  = if button_clicked i && negb (blank (user_answer i))
    then helper_events (fst (feedback_report w i)) else [].
Proof.
  unfold on_submit. rewrite not_strip_blank.
  destruct (button_clicked i), (blank (user_answer i)); reflexivity.
Qed.

Lemma script_helpers (w : world) (i : page_inputs) :
  helper_events (fst (script w i)) = expected_helper_events w i.
Proof.
  unfold script, expected_helper_events, admitted, deployment_gate.
  destruct (api_key_setup_draws w) as [tk [Hk Hkq]]. rewrite Hk.
  destruct (draw_form_draws i) as [tf [Hf Hfq]]. rewrite Hf.
  destruct draw_sidebar_draws as [tb [Hb Hbq]]. rewrite Hb.
  pose proof (on_submit_helpers w i) as Ho.
  rewrite feedback_report_helpers, emotion_section_helpers in Ho.
  destruct (pystr_eqb (AUTHORIZED_DEPLOYMENT_FLAG upper_other w) (lit "TRUE"));
    [|reflexivity].
  destruct (on_submit w i) as [to [[]|e]]; unfold call; simpl in *;
    rewrite !helper_events_app, Hkq, Hfq, ?Hbq, Ho, ?app_nil_r; reflexivity.
Qed.

Lemma emotion_posts (image_bytes : option (list byte)) :
  posted_data (events (analyze_emotion_from_image error_text cv2_imdecode
                         DeepFace_analyze image_bytes)) = [].
Proof.
  destruct image_bytes as [buf|]; [|reflexivity].
  unfold analyze_emotion_from_image, emotion_analysis, try_except, emotion_handler,
    emit, lift, bind, ret, events.
  destruct (cv2_imdecode buf) as [[pixels|]|e]; simpl.
  - destruct (DeepFace_analyze pixels) as [d|e]; simpl.
    + destruct (truthy d); simpl; [|reflexivity].
      destruct (obind (getitem0 error_text d) _) as [dom|e]; simpl.
      * destruct (obind (getitem0 error_text d) _) as [sc|e]; simpl;
          [reflexivity|].
        destruct (is_Exception e); reflexivity.
      * destruct (is_Exception e); reflexivity.
    + destruct (is_Exception e); reflexivity.
  - reflexivity.
  - destruct (is_Exception e); reflexivity.
Qed.

Lemma feedback_decodes_nothing (w : world) (category answer : pystr) :
  decoded_buffers (events (generate_feedback error_text format_value json_dumps
                             w category answer)) = [].
Proof.
  destruct (blank answer) eqn:Hb.
  - rewrite generate_feedback_blank by assumption. reflexivity.
  - rewrite generate_feedback_nonblank by assumption.
    destruct (exchange_raises_or_parsed json_dumps w category answer)
      as [[e He]|[_ [body Hp]]].
    + erewrite exchange_raised by exact He. unfold try_except.
      destruct (feedback_handler e) as [[t r]|] eqn:Hh; [|reflexivity].
      unfold feedback_handler in Hh.
      destruct (is_RequestException e); [injection Hh as <- <-; reflexivity|].
      destruct (is_JSONDecodeError e); [injection Hh as <- <-; reflexivity|].
      destruct (is_Exception e); [injection Hh as <- <-; reflexivity|discriminate].
    + erewrite exchange_parsed by exact Hp.
      pose proof (reading_cases error_text format_value body) as R.
      destruct (candidate_text body), (schema_gap body); try contradiction.
      * rewrite R. reflexivity.
      * rewrite R. reflexivity.
      * destruct R as [e [He Hc]]. rewrite He. unfold try_except, events, result.
        simpl. erewrite builtin_class_handled by exact Hc. reflexivity.
Qed.

Lemma decoded_buffers_app (t u : list event) :
  decoded_buffers (t ++ u) = decoded_buffers t ++ decoded_buffers u.
Proof.
  induction t as [|ev t IH]; simpl; [reflexivity|].
  destruct ev; simpl; rewrite IH; reflexivity.
Qed.

Lemma emotion_decodes (buf : list byte) :
  decoded_buffers (events (analyze_emotion_from_image error_text cv2_imdecode
                             DeepFace_analyze (Some buf))) = [buf].
Proof.
  unfold analyze_emotion_from_image, emotion_analysis, try_except, emotion_handler,
    emit, lift, bind, ret, events.
  destruct (cv2_imdecode buf) as [[pixels|]|e]; simpl.
  - destruct (DeepFace_analyze pixels) as [d|e]; simpl.
    + destruct (truthy d); simpl; [|reflexivity].
      destruct (obind (getitem0 error_text d) _) as [dom|e]; simpl.
      * destruct (obind (getitem0 error_text d) _) as [sc|e]; simpl;
          [reflexivity|].
        destruct (is_Exception e); reflexivity.
      * destruct (is_Exception e); reflexivity.
    + destruct (is_Exception e); reflexivity.
  - reflexivity.
  - destruct (is_Exception e); reflexivity.
Qed.

(** ** The page: properties *)

(** X10. When the gate refuses, a run of the script is the warning of the
    gate and the stop, and nothing else, whatever the environment holds
    besides and whatever the widgets would hand in: the warning about a
    missing API key, the form, the report and the sidebar are not drawn, no
    request is sent and no image is handed to the codec. *)
Theorem refused_script_draws_nothing (w : world) (i : page_inputs) :
  admitted w = false ->
  script w i = ([Helper (StError unauthorized_message); Helper StStop], Returned tt).
Proof.
  unfold admitted, script, deployment_gate. intros H. rewrite H. reflexivity.
Qed.

(** X11. The calls of [requests.post] in a run of the script: exactly one,
    with the document built from the selected category and the typed
    answer, when the gate admits the run, the button was clicked and the
    answer is not blank; none in every other run.  The statement counts the
    calls the program makes itself; what TextBlob, OpenCV and DeepFace do
    inside is not part of it. *)
Theorem script_requests (w : world) (i : page_inputs) :
  posted_data (helper_events (fst (script w i)))
  = if admitted w && button_clicked i && negb (blank (user_answer i))
    then [json_dumps (payload (question_category i) (user_answer i))]
    else [].
Proof.
  rewrite script_helpers. unfold expected_helper_events, feedback_call.
  destruct (admitted w); [|reflexivity].
  destruct (button_clicked i); [|reflexivity].
  destruct (blank (user_answer i)) eqn:Hb; [reflexivity|]. cbn [andb negb].
  rewrite posted_data_app, generate_feedback_posts, Hb.
  destruct (returns _); [|reflexivity].
  destruct (camera_image i); [|reflexivity].
  now rewrite emotion_posts.
Qed.

(** X12. A click with a blank answer is answered by the page itself with a
    warning; [generate_feedback], the sentiment and the camera are not
    reached, so the validation message of [generate_feedback] is not what
    the user of the page sees. *)
Theorem blank_submit_warns (w : world) (i : page_inputs) :
  button_clicked i = true ->
  blank (user_answer i) = true ->
  on_submit w i
  = ([StWarning (PyStr (lit "Please enter your answer before getting feedback."))],
     Returned tt).
Proof.
  intros Hc Hb. unfold on_submit. rewrite Hc, not_strip_blank, Hb. reflexivity.
Qed.

(** X13. Whatever [generate_feedback] returns for an answer that is not
    blank, be it the text of the service or one of the failure messages,
    the page shows that value as markdown and goes on to the sentiment of
    the answer: the two readouts carry TextBlob's polarity and subjectivity
    of the answer. *)
Theorem report_shows_sentiment (w : world) (i : page_inputs)
        (t : list event) (v : pyval) :
  button_clicked i = true ->
  blank (user_answer i) = false ->
  feedback_call w i = (t, Returned v) ->
  exists rest r,
    on_submit w i
    = (StHeader (lit "3. Feedback Report") :: map Helper t
       ++ [StSubheader ([129302%N] ++ lit " AI-Powered Feedback");
           StMarkdown v;
           StMarkdown (PyStr (lit "---"));
           StSubheader ([128522%N] ++ lit " Sentiment Analysis");
           StWrite (lit "**Polarity (Emotion):** "
                    ++ format_2f (PyFloat (polarity (TextBlob (user_answer i))))
                    ++ lit " (closer to 1.0 is positive, -1.0 is negative)");
           StWrite (lit "**Subjectivity (Opinion):** "
                    ++ format_2f (PyFloat (subjectivity (TextBlob (user_answer i))))
                    ++ lit " (closer to 1.0 is opinion, 0.0 is factual)")]
       ++ rest,
       r).
Proof.
  intros Hc Hb Hf. unfold on_submit, feedback_report.
  rewrite Hc, not_strip_blank, Hb. simpl negb. cbv iota.
  unfold feedback_call in Hf. rewrite Hf.
  destruct (sentiment_section_draws i) as [ts [Hs _]]. rewrite Hs, Hb.
  destruct (emotion_section i) as [te re].
  unfold call, draw, pbind. simpl.
  exists (ts ++ StMarkdown (PyStr (lit "---")) :: te), re.
  reflexivity.
Qed.

(** X14. A run of the script hands a buffer to the image codec at most
    once, and only the snapshot of the camera: when there is one and the
    report got past the call of [generate_feedback]. *)
Theorem snapshot_decoded_once (w : world) (i : page_inputs) :
  decoded_buffers (helper_events (fst (script w i)))
  = match camera_image i with
    | Some bytes =>
        if admitted w && button_clicked i && negb (blank (user_answer i))
           && returns (feedback_call w i)
        then [bytes] else []
    | None => []
    end.
Proof.
  rewrite script_helpers. unfold expected_helper_events, feedback_call.
  destruct (admitted w); [|now destruct (camera_image i)].
  destruct (button_clicked i); [|now destruct (camera_image i)].
  destruct (blank (user_answer i)); [now destruct (camera_image i)|].
  cbn [andb negb].
  rewrite decoded_buffers_app, feedback_decodes_nothing.
  destruct (returns _); [|now destruct (camera_image i)].
  destruct (camera_image i); [|reflexivity].
  now rewrite emotion_decodes.
Qed.

(** X15. A result of [analyze_emotion_from_image] whose first component
    Python counts as false ([None] in every not-detected case) is shown as a
    warning that carries the second component, and not as a success. *)
Theorem undetected_emotion_warned (i : page_inputs) (bytes : list byte)
        (t : list event) (dominant detail : pyval) :
  camera_image i = Some bytes ->
  analyze_emotion_from_image error_text cv2_imdecode DeepFace_analyze (Some bytes)
  = (t, Returned (dominant, detail)) ->
  truthy dominant = false ->
  emotion_section i
  = ([StSubheader ([128065%N] ++ [65039%N] ++ lit " Facial Emotion Detection");
      StMarkdown (PyStr camera_help_text);
      StCameraInput (lit "Smile for the camera!")]
     ++ map Helper t ++ [StWarning detail],
     Returned tt).
Proof.
  intros Hc Ha Ht. unfold emotion_section. rewrite Hc, Ha.
  unfold call, draw, pbind. simpl. rewrite Ht. reflexivity.
Qed.

(** X16. A dominant emotion that is a string and not empty is shown
    capitalized in a success box, followed by the scores as JSON. *)
Theorem detected_emotion_shown (i : page_inputs) (bytes : list byte)
        (t : list event) (c : codepoint) (name : pystr) (scores : pyval) :
  camera_image i = Some bytes ->
  analyze_emotion_from_image error_text cv2_imdecode DeepFace_analyze (Some bytes)
  = (t, Returned (PyStr (c :: name), scores)) ->
  emotion_section i
  = ([StSubheader ([128065%N] ++ [65039%N] ++ lit " Facial Emotion Detection");
      StMarkdown (PyStr camera_help_text);
      StCameraInput (lit "Smile for the camera!")]
     ++ map Helper t
     ++ [StSuccess (lit "**Dominant Emotion Detected: " ++ str_capitalize (c :: name)
                    ++ lit "**");
         StWrite (lit "Emotion Probabilities:");
         StJson scores],
     Returned tt).
Proof.
  intros Hc Ha. unfold emotion_section. rewrite Hc, Ha.
  unfold call, draw, pbind. simpl. reflexivity.
Qed.

Transparent lit.

End Script.

(** * [emotion_detector.py]: the webcam function

    The module imports [cv2], [numpy], [DeepFace] and [os] (lines 1-4) and
    defines one function (line 10).  It does not import Streamlit, and [st]
    is no built-in name of Python: the name the function reads at line 32 is
    bound nowhere. *)

Module EmotionDetector.

Inductive detector_event : Type :=
| VideoCapture (index : Z)      (* cv2.VideoCapture(index) *)
| Print (msg : pystr).          (* print(msg) *)

Definition detector_run (A : Type) : Type := (list detector_event * outcome A)%type.

Definition dret {A} (a : A) : detector_run A := ([], Returned a).

Definition dbind {A B} (m : detector_run A) (f : A -> detector_run B)
  : detector_run B :=
  match m with
  | (t, Returned a) => let (t', r) := f a in (t ++ t', r)
  | (t, Raised e) => (t, Raised e)
  end.

Definition demit (ev : detector_event) : detector_run unit := ([ev], Returned tt).

(** The names bound in the module when the function runs. *)
Definition module_names : list pystr :=
  [lit "cv2"; lit "np"; lit "DeepFace"; lit "os";
   lit "analyze_facial_emotion_from_webcam"].

(** The built-in names the function reads. *)
Definition builtin_names : list pystr :=
  [lit "print"; lit "ValueError"; lit "ord"].

(** Reading a global name: [NameError] when it is bound neither in the
    module nor among the built-ins. *)
Definition load_global (name : pystr) : detector_run unit :=
  if existsb (pystr_eqb name) (module_names ++ builtin_names) then dret tt
  else ([], Raised (MkException OtherException
                                (lit "name '" ++ name ++ lit "' is not defined"))).

Section Webcam.

Variable cap_isOpened : bool.             (* cap.isOpened() at line 28 *)
Variable session : detector_run pystr.    (* lines 32-103, were [st] bound *)

Definition analyze_facial_emotion_from_webcam : detector_run pystr :=
  dbind (demit (VideoCapture 0)) (fun _ =>
  if negb cap_isOpened then
    dbind (demit (Print (lit "Error: Could not open webcam."))) (fun _ =>
    dret (lit "Webcam not accessible."))
  else
    dbind (load_global (lit "st")) (fun _ => session)).

(** Lines 106-111, when the file is run as a script. *)
Definition main : detector_run unit :=
  dbind (demit (Print (lit "Running conceptual webcam emotion detection locally...")))
        (fun _ =>
  dbind analyze_facial_emotion_from_webcam (fun result =>
  demit (Print result))).

(** X17. The webcam function cannot analyse anything: when the webcam
    cannot be opened it prints an error and returns "Webcam not accessible.";
    when it can, the function raises [NameError] at its first use of [st],
    before a frame is read and before the [try] whose [finally] would release
    the webcam.  Whatever lines 32-103 would do, they are not reached; run as
    a script, the file prints the message or ends in the [NameError]. *)
Theorem webcam_function_stops_early :
  analyze_facial_emotion_from_webcam
  = (if cap_isOpened
     then ([VideoCapture 0],
           Raised (MkException OtherException (lit "name 'st' is not defined")))
     else ([VideoCapture 0; Print (lit "Error: Could not open webcam.")],
           Returned (lit "Webcam not accessible.")))
  /\ main
     = (if cap_isOpened
        then ([Print (lit "Running conceptual webcam emotion detection locally...");
               VideoCapture 0],
              Raised (MkException OtherException (lit "name 'st' is not defined")))
        else ([Print (lit "Running conceptual webcam emotion detection locally...");
               VideoCapture 0;
               Print (lit "Error: Could not open webcam.");
               Print (lit "Webcam not accessible.")],
              Returned tt)).
Proof.
  unfold main, analyze_facial_emotion_from_webcam.
  destruct cap_isOpened; split; vm_compute; reflexivity.
Qed.

End Webcam.

End EmotionDetector.

(** * Further concrete runs *)

Module PageSample.

Definition format_2f (v : pyval) : pystr := lit "0.50".
Definition str_capitalize (s : pystr) : pystr := ascii_upper (hd 0%N s) :: tl s.

(** A first byte of a PNG file, for [Sample.cv2_imdecode]. *)
Definition snapshot : list byte := [x89].

(** A codec that raises on every buffer. *)
Definition failing_codec (buf : list byte) : outcome (option Sample.image) :=
  Raised (MkException OtherException (lit "cv2.error")).

(** One region: a happy face. *)
Definition happy_region : list (pystr * pyval) :=
  [(lit "emotion", PyDict [(lit "happy", PyFloat 0.9%float)]);
   (lit "dominant_emotion", PyStr (lit "happy"))].

Definition seeing_happy (pixels : Sample.image) : outcome pyval :=
  Returned (PyList [PyDict happy_region]).

(** [{"candidates": [{"content": {"parts": [{"text": "Well done."}]}}]}] *)
Definition praise : pyval :=
  PyDict [(lit "candidates",
           PyList [PyDict [(lit "content",
                            PyDict [(lit "parts",
                                     PyList [PyDict [(lit "text",
                                                      PyStr (lit "Well done."))]])])]])].

(** The service answers with a body that is no JSON. *)
Definition garbled : world :=
  MkWorld Sample.no_variables
          (fun _ _ _ =>
             Returned (MkResponse None
                         (Raised (MkException RequestsJSONDecodeError
                                              (lit "Expecting value"))))).

(** The variable of the gate is set to TRUE and the service answers [body]. *)
Definition authorized (body : pyval) : world :=
  MkWorld (Sample.set_to (lit "TRUE")) (requests_post (Sample.answering body)).

Definition clicked_with (text : pystr) (camera : option (list byte)) : page_inputs :=
  MkInputs Sample.category text true camera.

End PageSample.

(** X1 on a response with one candidate. *)
Lemma feedback_success_iff_witness :
  generate_feedback Sample.error_text Sample.format_value Sample.json_dumps
                    (Sample.answering PageSample.praise) Sample.category Sample.answer
  = ([StSpinner (lit "Generating feedback with AI (Gemini)...");
      RequestsPost (api_url (Sample.answering PageSample.praise)) headers
                   (Sample.json_dumps (payload Sample.category Sample.answer))],
     Returned (PyStr (lit "Well done.")))
  <-> candidate_text PageSample.praise = Some (PyStr (lit "Well done.")).
Proof.
  apply (@feedback_success_iff Sample.error_text Sample.format_value
           Sample.json_dumps (Sample.answering PageSample.praise)
           Sample.category Sample.answer PageSample.praise
           (PyStr (lit "Well done.")));
    reflexivity.
Defined.

(** X2 on a body that is no JSON, reported by [requests]' own error. *)
Lemma unparseable_body_reported_witness :
  generate_feedback Sample.error_text Sample.format_value Sample.json_dumps
                    PageSample.garbled Sample.category Sample.answer
  = ([StSpinner (lit "Generating feedback with AI (Gemini)...");
      RequestsPost (api_url PageSample.garbled) headers
                   (Sample.json_dumps (payload Sample.category Sample.answer));
      StError ((if is_RequestException
                     (MkException RequestsJSONDecodeError (lit "Expecting value"))
                then lit "Gemini API Request Error: "
                else lit "Failed to decode JSON response from Gemini API: ")
               ++ exc_text (MkException RequestsJSONDecodeError (lit "Expecting value")))],
     Returned (PyStr (if is_RequestException
                           (MkException RequestsJSONDecodeError (lit "Expecting value"))
                      then lit "An error occurred while connecting to Gemini API. Please check your network or API key."
                      else lit "An error occurred while processing Gemini feedback. Please try again."))).
Proof.
  apply (@unparseable_body_reported Sample.error_text Sample.format_value
           Sample.json_dumps PageSample.garbled Sample.category Sample.answer
           (MkResponse None (Raised (MkException RequestsJSONDecodeError
                                                 (lit "Expecting value"))))
           (MkException RequestsJSONDecodeError (lit "Expecting value")));
    reflexivity.
Defined.

(** X3 on an interrupt. *)
Lemma non_exception_propagates_witness :
  generate_feedback Sample.error_text Sample.format_value Sample.json_dumps
                    Sample.interrupted Sample.category Sample.answer
  = (exchange_opening Sample.json_dumps Sample.interrupted Sample.category Sample.answer,
     Raised (MkException NonException [])).
Proof.
  apply (@non_exception_propagates Sample.error_text Sample.format_value
           Sample.json_dumps Sample.interrupted Sample.category Sample.answer
           (MkException NonException []));
    reflexivity.
Defined.

(** X4 on a snapshot with one happy face. *)
Lemma first_face_reported_witness :
  analyze_emotion_from_image Sample.error_text Sample.cv2_imdecode
                             PageSample.seeing_happy (Some PageSample.snapshot)
  = ([Cv2Imdecode PageSample.snapshot; StSpinner (lit "Analyzing facial emotions...");
      DeepFaceAnalyze],
     Returned (PyStr (lit "happy"), PyDict [(lit "happy", PyFloat 0.9%float)])).
Proof.
  apply (@first_face_reported Sample.error_text Sample.image Sample.cv2_imdecode
           PageSample.seeing_happy PageSample.snapshot PageSample.snapshot
           PageSample.happy_region [] (PyStr (lit "happy"))
           (PyDict [(lit "happy", PyFloat 0.9%float)]));
    reflexivity.
Defined.

(** X5 on a snapshot in which DeepFace finds nothing. *)
Lemma no_face_detected_witness :
  analyze_emotion_from_image Sample.error_text Sample.cv2_imdecode
                             Sample.DeepFace_analyze (Some PageSample.snapshot)
  = ([Cv2Imdecode PageSample.snapshot; StSpinner (lit "Analyzing facial emotions...");
      DeepFaceAnalyze],
     Returned (PyNone, PyStr (lit "No face detected in the image."))).
Proof.
  apply (@no_face_detected Sample.error_text Sample.image Sample.cv2_imdecode
           Sample.DeepFace_analyze PageSample.snapshot PageSample.snapshot
           (PyList []));
    reflexivity.
Defined.

(** X6 with a codec that raises. *)
Lemma emotion_analysis_returns_witness :
  exists t dominant detail,
    analyze_emotion_from_image Sample.error_text PageSample.failing_codec
                               Sample.DeepFace_analyze (Some PageSample.snapshot)
    = (t, Returned (dominant, detail)).
Proof.
  apply (@emotion_analysis_returns Sample.error_text Sample.image
           PageSample.failing_codec Sample.DeepFace_analyze
           (Some PageSample.snapshot)).
  intros buf e _ He. injection He as <-. reflexivity.
Defined.

(** X7 with a codec that raises. *)
Lemma emotion_error_reported_witness :
  exists t,
    analyze_emotion_from_image Sample.error_text PageSample.failing_codec
                               Sample.DeepFace_analyze (Some PageSample.snapshot)
    = (t ++ [StError (lit "Error analyzing image for emotions: "
                      ++ exc_text (MkException OtherException (lit "cv2.error")))],
       Returned (PyNone,
                 PyStr (lit "An error occurred during emotion analysis: "
                        ++ exc_text (MkException OtherException (lit "cv2.error")))))
    /\ (t = [Cv2Imdecode PageSample.snapshot]
        \/ t = [Cv2Imdecode PageSample.snapshot;
                StSpinner (lit "Analyzing facial emotions..."); DeepFaceAnalyze]).
Proof.
  apply (@emotion_error_reported Sample.error_text Sample.image
           PageSample.failing_codec Sample.DeepFace_analyze PageSample.snapshot
           (MkException OtherException (lit "cv2.error")));
    reflexivity.
Defined.

(** X8 on a snapshot that decodes. *)
Lemma analysis_needs_decoded_image_witness :
  exists buf pixels,
    Some PageSample.snapshot = Some buf
    /\ Sample.cv2_imdecode buf = Returned (Some pixels).
Proof.
  apply (@analysis_needs_decoded_image Sample.error_text Sample.image
           Sample.cv2_imdecode Sample.DeepFace_analyze (Some PageSample.snapshot)).
  vm_compute. right. right. left. reflexivity.
Defined.

(** X9 on the value tRuE. *)
Lemma gate_ignores_case_only_witness :
  deployment_gate Sample.upper_other
                  (MkWorld (Sample.set_to (lit "tRuE")) (requests_post Sample.offline))
  = ([], Returned Running)
  <-> spells_TRUE (lit "tRuE") = true.
Proof.
  apply (@gate_ignores_case_only Sample.upper_other
           (MkWorld (Sample.set_to (lit "tRuE")) (requests_post Sample.offline))
           (lit "tRuE"));
    reflexivity.
Defined.

(** X10 when the variable is not set. *)
Lemma refused_script_draws_nothing_witness :
  script Sample.upper_other Sample.error_text Sample.format_value Sample.json_dumps
         Sample.TextBlob Sample.cv2_imdecode Sample.DeepFace_analyze
         PageSample.format_2f PageSample.str_capitalize
         Sample.offline (PageSample.clicked_with Sample.answer None)
  = ([Helper (StError unauthorized_message); Helper StStop], Returned tt).
Proof.
  apply (@refused_script_draws_nothing Sample.upper_other Sample.error_text
           Sample.format_value Sample.json_dumps Sample.TextBlob Sample.image
           Sample.cv2_imdecode Sample.DeepFace_analyze PageSample.format_2f
           PageSample.str_capitalize Sample.offline
           (PageSample.clicked_with Sample.answer None)).
  reflexivity.
Defined.

(** X12 on a whitespace-only answer. *)
Lemma blank_submit_warns_witness :
  on_submit Sample.error_text Sample.format_value Sample.json_dumps
            Sample.TextBlob Sample.cv2_imdecode Sample.DeepFace_analyze
            PageSample.format_2f PageSample.str_capitalize
            Sample.offline (PageSample.clicked_with Sample.whitespace None)
  = ([StWarning (PyStr (lit "Please enter your answer before getting feedback."))],
     Returned tt).
Proof.
  apply (@blank_submit_warns Sample.error_text Sample.format_value
           Sample.json_dumps Sample.TextBlob Sample.image Sample.cv2_imdecode
           Sample.DeepFace_analyze PageSample.format_2f PageSample.str_capitalize
           Sample.offline (PageSample.clicked_with Sample.whitespace None));
    reflexivity.
Defined.

(** X13 when the service cannot be reached: the network message is shown
    and the sentiment follows. *)
Lemma report_shows_sentiment_witness :
  exists rest r,
    on_submit Sample.error_text Sample.format_value Sample.json_dumps
              Sample.TextBlob Sample.cv2_imdecode Sample.DeepFace_analyze
              PageSample.format_2f PageSample.str_capitalize
              Sample.offline (PageSample.clicked_with Sample.answer None)
    = (StHeader (lit "3. Feedback Report")
       :: map Helper
              (events (generate_feedback Sample.error_text Sample.format_value
                         Sample.json_dumps Sample.offline Sample.category
                         Sample.answer))
       ++ [StSubheader ([129302%N] ++ lit " AI-Powered Feedback");
           StMarkdown (PyStr (lit "An error occurred while connecting to Gemini API. Please check your network or API key."));
           StMarkdown (PyStr (lit "---"));
           StSubheader ([128522%N] ++ lit " Sentiment Analysis");
           StWrite (lit "**Polarity (Emotion):** "
                    ++ PageSample.format_2f
                         (PyFloat (polarity (Sample.TextBlob
                                               (user_answer (PageSample.clicked_with
                                                               Sample.answer None)))))
                    ++ lit " (closer to 1.0 is positive, -1.0 is negative)");
           StWrite (lit "**Subjectivity (Opinion):** "
                    ++ PageSample.format_2f
                         (PyFloat (subjectivity (Sample.TextBlob
                                                   (user_answer (PageSample.clicked_with
                                                                   Sample.answer None)))))
                    ++ lit " (closer to 1.0 is opinion, 0.0 is factual)")]
       ++ rest,
       r).
Proof.
  apply (@report_shows_sentiment Sample.error_text Sample.format_value
           Sample.json_dumps Sample.TextBlob Sample.image Sample.cv2_imdecode
           Sample.DeepFace_analyze PageSample.format_2f PageSample.str_capitalize
           Sample.offline (PageSample.clicked_with Sample.answer None)
           (events (generate_feedback Sample.error_text Sample.format_value
                      Sample.json_dumps Sample.offline Sample.category
                      Sample.answer))
           (PyStr (lit "An error occurred while connecting to Gemini API. Please check your network or API key.")));
    reflexivity.
Defined.

(** X15 on a snapshot the codec yields no image for. *)
Lemma undetected_emotion_warned_witness :
  emotion_section Sample.error_text Sample.cv2_imdecode Sample.DeepFace_analyze
                  PageSample.str_capitalize
                  (PageSample.clicked_with Sample.answer (Some Sample.not_an_image))
  = ([StSubheader ([128065%N] ++ [65039%N] ++ lit " Facial Emotion Detection");
      StMarkdown (PyStr camera_help_text);
      StCameraInput (lit "Smile for the camera!")]
     ++ map Helper [Cv2Imdecode Sample.not_an_image]
     ++ [StWarning (PyStr (lit "Could not decode image. Please try another picture."))],
     Returned tt).
Proof.
  apply (@undetected_emotion_warned Sample.error_text Sample.image
           Sample.cv2_imdecode Sample.DeepFace_analyze PageSample.str_capitalize
           (PageSample.clicked_with Sample.answer (Some Sample.not_an_image))
           Sample.not_an_image [Cv2Imdecode Sample.not_an_image] PyNone
           (PyStr (lit "Could not decode image. Please try another picture.")));
    reflexivity.
Defined.

(** X16 on a snapshot with one happy face. *)
Lemma detected_emotion_shown_witness :
  emotion_section Sample.error_text Sample.cv2_imdecode PageSample.seeing_happy
                  PageSample.str_capitalize
                  (PageSample.clicked_with Sample.answer (Some PageSample.snapshot))
  = ([StSubheader ([128065%N] ++ [65039%N] ++ lit " Facial Emotion Detection");
      StMarkdown (PyStr camera_help_text);
      StCameraInput (lit "Smile for the camera!")]
     ++ map Helper [Cv2Imdecode PageSample.snapshot;
                    StSpinner (lit "Analyzing facial emotions..."); DeepFaceAnalyze]
     ++ [StSuccess (lit "**Dominant Emotion Detected: "
                    ++ PageSample.str_capitalize (lit "happy") ++ lit "**");
         StWrite (lit "Emotion Probabilities:");
         StJson (PyDict [(lit "happy", PyFloat 0.9%float)])],
     Returned tt).
Proof.
  apply (@detected_emotion_shown Sample.error_text Sample.image
           Sample.cv2_imdecode PageSample.seeing_happy PageSample.str_capitalize
           (PageSample.clicked_with Sample.answer (Some PageSample.snapshot))
           PageSample.snapshot
           [Cv2Imdecode PageSample.snapshot;
            StSpinner (lit "Analyzing facial emotions..."); DeepFaceAnalyze]
           104%N (lit "appy") (PyDict [(lit "happy", PyFloat 0.9%float)]));
    reflexivity.
Defined.

(** * Runs for the amended claims *)

Module StatusSample.

(** A codec like OpenCV's: an error on the empty buffer, an image for a
    buffer that starts like a PNG file, no image otherwise. *)
Definition cv2_imdecode (buf : list byte) : outcome (option Sample.image) :=
  match buf with
  | [] => Raised (MkException OtherException (lit "(-215:Assertion failed) !buf.empty()"))
  | x89 :: _ => Returned (Some buf)
  | _ :: _ => Returned None
  end.

(** The service answers with the status [status_code] and the body [body]. *)
Definition answering_with (status_code : Z) (body : pyval) : world :=
  MkWorld Sample.no_variables
          (fun _ _ _ =>
             Returned (requests_response status_code (lit "HTTP error")
                                         (Returned body))).

End StatusSample.

(** C2 as amended, on a response without [candidates]. *)
Lemma response_without_text_witness :
  exists report,
    generate_feedback Sample.error_text Sample.format_value Sample.json_dumps
                      (Sample.answering Sample.empty_object) Sample.category Sample.answer
    = (exchange_opening Sample.json_dumps (Sample.answering Sample.empty_object)
                        Sample.category Sample.answer ++ [StError report],
       Returned (PyStr (if schema_gap Sample.empty_object
                        then lit "An error occurred while parsing Gemini feedback. Please try again."
                        else lit "An unexpected error occurred. Please try again.")))
    /\ (schema_gap Sample.empty_object = true ->
        report = lit "Gemini API response structure unexpected: "
                 ++ Sample.format_value Sample.empty_object)
    /\ (schema_gap Sample.empty_object = false ->
        exists e, extract_feedback Sample.error_text Sample.format_value
                                   Sample.empty_object = ([], Raised e)
                  /\ builtin_class e = true
                  /\ report = lit "An unexpected error occurred: " ++ exc_text e).
Proof.
  apply (@response_without_text Sample.error_text Sample.format_value
           Sample.json_dumps (Sample.answering Sample.empty_object)
           Sample.category Sample.answer Sample.empty_object);
    reflexivity.
Defined.

(** C3, against the claim as stated: a response with the status 300, which
    is no 2xx status, and a body with the text is read like any other, and
    the call returns the text: a success, no network failure. *)
Lemma status_300_succeeds :
  status_is_2xx 300 = false
  /\ generate_feedback Sample.error_text Sample.format_value Sample.json_dumps
                       (StatusSample.answering_with 300 PageSample.praise)
                       Sample.category Sample.answer
     = ([StSpinner (lit "Generating feedback with AI (Gemini)...");
         RequestsPost (api_url (StatusSample.answering_with 300 PageSample.praise))
                      headers
                      (Sample.json_dumps (payload Sample.category Sample.answer))],
        Returned (PyStr (lit "Well done."))).
Proof. split; vm_compute; reflexivity. Qed.

(** C3 as amended, on a response with the status 503. *)
Lemma network_failure_reported_witness :
  generate_feedback Sample.error_text Sample.format_value Sample.json_dumps
                    (StatusSample.answering_with 503 PageSample.praise)
                    Sample.category Sample.answer
  = ([StSpinner (lit "Generating feedback with AI (Gemini)...");
      RequestsPost (api_url (StatusSample.answering_with 503 PageSample.praise))
                   headers
                   (Sample.json_dumps (payload Sample.category Sample.answer));
      StError (lit "Gemini API Request Error: "
               ++ exc_text (MkException RequestException (lit "HTTP error")))],
     Returned (PyStr (lit "An error occurred while connecting to Gemini API. Please check your network or API key."))).
Proof.
  apply (@network_failure_reported Sample.error_text Sample.format_value
           Sample.json_dumps (StatusSample.answering_with 503 PageSample.praise)
           Sample.category Sample.answer
           (MkException RequestException (lit "HTTP error"))).
  - reflexivity.
  - right. exists 503%Z, (lit "HTTP error"), (Returned PageSample.praise).
    split; [reflexivity|]. split; [lia | reflexivity].
Defined.

(** C4, against the claim as stated: on a buffer the codec returns no image
    for, and on one it raises an error for, the message returned is not
    "could not decode image"; in the second case the error is shown too. *)
Lemma decode_message_differs :
  StatusSample.cv2_imdecode Sample.not_an_image = Returned None
  /\ analyze_emotion_from_image Sample.error_text StatusSample.cv2_imdecode
                                Sample.DeepFace_analyze (Some Sample.not_an_image)
     = ([Cv2Imdecode Sample.not_an_image],
        Returned (PyNone,
                  PyStr (lit "Could not decode image. Please try another picture.")))
  /\ pystr_eqb (lit "Could not decode image. Please try another picture.")
               (lit "could not decode image") = false
  /\ analyze_emotion_from_image Sample.error_text StatusSample.cv2_imdecode
                                Sample.DeepFace_analyze (Some [])
     = ([Cv2Imdecode [];
         StError (lit "Error analyzing image for emotions: (-215:Assertion failed) !buf.empty()")],
        Returned (PyNone,
                  PyStr (lit "An error occurred during emotion analysis: (-215:Assertion failed) !buf.empty()")))
  /\ pystr_eqb (lit "An error occurred during emotion analysis: (-215:Assertion failed) !buf.empty()")
               (lit "could not decode image") = false.
Proof. repeat split; vm_compute; reflexivity. Qed.

(** C4 as amended, on the empty buffer, for which the codec raises. *)
Lemma undecodable_image_witness :
  analyze_emotion_from_image Sample.error_text StatusSample.cv2_imdecode
                             Sample.DeepFace_analyze (Some [])
  = ([Cv2Imdecode [];
      StError (lit "Error analyzing image for emotions: "
               ++ exc_text (MkException OtherException
                                        (lit "(-215:Assertion failed) !buf.empty()")))],
     Returned (PyNone,
               PyStr (lit "An error occurred during emotion analysis: "
                      ++ exc_text (MkException OtherException
                                               (lit "(-215:Assertion failed) !buf.empty()"))))).
Proof.
  apply (@undecodable_image Sample.error_text Sample.image StatusSample.cv2_imdecode
           Sample.DeepFace_analyze []
           (CodecError (MkException OtherException
                                    (lit "(-215:Assertion failed) !buf.empty()")))).
  reflexivity.
Defined.
